(** * Swachatha-SVECW: the complaint-tracking server (server.js)

    A shallow embedding of the Express/Mongoose request handlers of
    [server.js].  The MongoDB collections are lists in insertion
    (natural) order, a request handler is a function from the store and
    the request to the new store and the HTTP response, and the
    Mongoose schema validators that run inside [save()] are written out
    as boolean checks on the documents. *)

From Stdlib Require Import ZArith String Ascii Strings.Byte List Lia Bool.
From stdpp Require Import base decidable option list strings.

Local Open Scope Z_scope.

(** ** JavaScript values used by the handlers *)

(** A field of [req.body] that the handlers read as text: [None] is
    [undefined] (the field is absent), [Some s] is the string [s]. *)
Definition field := option string.

(** [!x] on such a field: [undefined] and the empty string are falsy. *)
Definition falsy (x : field) : bool :=
  match x with
  | None => true
  | Some s => String.eqb s ""
  end.

(** [s.endsWith(suffix)]. *)
Definition endsWith (s suffix : string) : bool :=
  let n := String.length s in
  let m := String.length suffix in
  (m <=? n)%nat && String.eqb (substring (n - m) m s) suffix.

(** [`${x}`] for a string-or-undefined value. *)
Definition template (x : field) : string :=
  match x with
  | None => "undefined"
  | Some s => s
  end.

(** [buffer.toString("base64")]: three bytes become four characters of
    the standard alphabet, the tail is padded with [=]. *)
Definition b64_alphabet : string :=
  "ABCDEFGHIJKLMNOPQRSTUVWXYZabcdefghijklmnopqrstuvwxyz0123456789+/".

Definition b64_char (n : N) : ascii :=
  match String.get (N.to_nat (N.land n 63)) b64_alphabet with
  | Some c => c
  | None => "="%char
  end.

Definition b64_triple (a b c : byte) : N :=
  N.lor (N.shiftl (Byte.to_N a) 16) (N.lor (N.shiftl (Byte.to_N b) 8) (Byte.to_N c)).

Fixpoint base64 (bs : list byte) : string :=
  match bs with
  | [] => ""
  | [a] =>
      let t := b64_triple a x00 x00 in
      String (b64_char (N.shiftr t 18)) (String (b64_char (N.shiftr t 12)) "==")
  | [a; b] =>
      let t := b64_triple a b x00 in
      String (b64_char (N.shiftr t 18)) (String (b64_char (N.shiftr t 12))
        (String (b64_char (N.shiftr t 6)) "="))
  | a :: b :: c :: rest =>
      let t := b64_triple a b c in
      String (b64_char (N.shiftr t 18)) (String (b64_char (N.shiftr t 12))
        (String (b64_char (N.shiftr t 6)) (String (b64_char t) (base64 rest))))
  end.

(** [bcrypt.hash(password, 10)], symbolically: the digest remembers the
    cost and the text it was made from, and [bcrypt.compare] accepts
    exactly that text.  A digest is never the empty string.  (bcrypt
    reads 72 bytes of a password; the symbolic comparison is exact for
    passwords within that length.) *)
Inductive Digest := Bcrypt (rounds : nat) (plain : string).

Definition bcrypt_hash (password : field) (rounds : nat) : option Digest :=
  match password with
  | None => None                       (* rejects: Illegal arguments *)
  | Some p => Some (Bcrypt rounds p)
  end.

Definition bcrypt_compare (password : field) (d : Digest) : option bool :=
  match password, d with
  | None, _ => None                    (* rejects: Illegal arguments *)
  | Some p, Bcrypt _ plain => Some (String.eqb p plain)
  end.

(** What the JavaScript engine and Mongoose do with date strings is not
    in [server.js]; both conversions are parameters of the model.  A
    date is its time value in milliseconds. *)
Record Runtime := {
  (** [new Date(s)]: [None] is an Invalid Date. *)
  Date_parse : string -> option Z;
  (** Mongoose's cast of a string to the schema type [Date]: [None]
      when the cast fails or gives [null]. *)
  SchemaDate_cast : string -> option Z
}.

(** ** Models *)

Definition ObjectId := nat.

Module Account.
(** The [User] and [Admin] schemas. *)
Record t := mk {
  username : field;
  email : field;
  password : Digest
}.
(** [required: true] on a String path rejects [undefined] and [""]. *)
Definition validate (d : t) : bool :=
  negb (falsy (username d)) && negb (falsy (email d)).
End Account.

Module Image.
Record t := mk { data : list byte; contentType : string }.
End Image.

Module Complaint.
Record t := mk {
  _id : ObjectId;
  username : field;
  complaintText : field;
  date : option Z;
  location : field;
  subLocation : field;
  roomNo : field;
  image : option Image.t;
  status : field;
  createdAt : Z;
  updatedAt : Z
}.
Definition validate (d : t) : bool :=
  negb (falsy (username d)) && negb (falsy (complaintText d))
  && bool_decide (is_Some (date d)) && negb (falsy (location d)).
Definition set_status (st : field) (d : t) : t :=
  mk (_id d) (username d) (complaintText d) (date d) (location d)
     (subLocation d) (roomNo d) (image d) st (createdAt d) (updatedAt d).
Definition set_updatedAt (now : Z) (d : t) : t :=
  mk (_id d) (username d) (complaintText d) (date d) (location d)
     (subLocation d) (roomNo d) (image d) (status d) (createdAt d) now.
Definition set_image (img : option Image.t) (d : t) : t :=
  mk (_id d) (username d) (complaintText d) (date d) (location d)
     (subLocation d) (roomNo d) img (status d) (createdAt d) (updatedAt d).
End Complaint.

Module Status.
Record t := mk {
  _id : ObjectId;
  complaintId : ObjectId;
  complaintText : field;
  location : field;
  subLocation : field;
  status : field;
  updatedAt : Z
}.
Definition enum : list string := ["Yet to Begin"; "In Progress"; "Resolved"].
(** The enum validator lets [undefined] through (the required
    validator catches it) and checks a string against the list. *)
Definition in_enum (st : field) : bool :=
  match st with
  | None => true
  | Some s => existsb (String.eqb s) enum
  end.
(** [statusSchema]: three required strings, and [status] is checked
    against the enum.  [complaintId] is always given. *)
Definition validate (d : t) : bool :=
  negb (falsy (complaintText d)) && negb (falsy (location d))
  && negb (falsy (status d)) && in_enum (status d).
End Status.

Module Event.
Record t := mk {
  date : field;
  department : field;
  title : field;
  venue : field;
  time : field;
  timePeriod : field;
  description : field
}.
Definition period_ok (p : field) : bool :=
  match p with
  | None => false
  | Some s => String.eqb s "AM" || String.eqb s "PM"
  end.
Definition validate (d : t) : bool :=
  negb (falsy (date d)) && negb (falsy (department d)) && negb (falsy (title d))
  && negb (falsy (venue d)) && negb (falsy (time d)) && period_ok (timePeriod d).
End Event.

Module Feedback.
Record t := mk {
  date : field;
  description : field;
  rating : option Z
}.
Definition validate (d : t) : bool :=
  negb (falsy (date d)) && negb (falsy (description d))
  && bool_decide (is_Some (rating d)).
End Feedback.

(** ** The database *)

(** The collections in natural order, and the supply of fresh
    [ObjectId]s that [new Complaint(...)] and [new Status(...)] draw
    from (the [_id]s of the other documents are never read). *)
Record Store := mkStore {
  users : list Account.t;
  admins : list Account.t;
  complaints : list Complaint.t;
  statuses : list Status.t;
  events : list Event.t;
  feedbacks : list Feedback.t;
  nextId : ObjectId
}.

Definition emptyStore : Store := mkStore [] [] [] [] [] [] 0%nat.

Definition set_users (l : list Account.t) (s : Store) : Store :=
  mkStore l (admins s) (complaints s) (statuses s) (events s) (feedbacks s) (nextId s).
Definition set_admins (l : list Account.t) (s : Store) : Store :=
  mkStore (users s) l (complaints s) (statuses s) (events s) (feedbacks s) (nextId s).
Definition set_complaints (l : list Complaint.t) (s : Store) : Store :=
  mkStore (users s) (admins s) l (statuses s) (events s) (feedbacks s) (nextId s).
Definition set_statuses (l : list Status.t) (s : Store) : Store :=
  mkStore (users s) (admins s) (complaints s) l (events s) (feedbacks s) (nextId s).
Definition set_events (l : list Event.t) (s : Store) : Store :=
  mkStore (users s) (admins s) (complaints s) (statuses s) l (feedbacks s) (nextId s).
Definition set_feedbacks (l : list Feedback.t) (s : Store) : Store :=
  mkStore (users s) (admins s) (complaints s) (statuses s) (events s) l (nextId s).

(** [new Complaint(...)], [new Status(...)]: the document gets a fresh
    [_id] when it is built, before any [save()]. *)
Definition newObjectId (s : Store) : ObjectId * Store :=
  (nextId s,
   mkStore (users s) (admins s) (complaints s) (statuses s) (events s) (feedbacks s)
           (S (nextId s))).

(** ** Requests and responses *)

Module Signup.
Record body := mk { username : field; email : field; password : field }.
End Signup.

Module Login.
Record body := mk { username : field; password : field }.
End Login.

Module Submit.
Record body := mk {
  username : field;
  complaintText : field;
  date : field;
  location : field;
  subLocation : field;
  roomNo : field
}.
(** [req.file] as multer's memory storage leaves it. *)
Record file := mkFile { buffer : list byte; mimetype : string }.
End Submit.

Module PostEvent.
Record body := mk {
  date : field;
  department : field;
  title : field;
  venue : field;
  time : field;
  timePeriod : field;
  description : field
}.
End PostEvent.

Module PostFeedback.
Record body := mk { date : field; description : field; rating : option Z }.
End PostFeedback.

Inductive Request :=
  | UserSignup (b : Signup.body)
  | UserLogin (b : Login.body)
  | AdminSignup (b : Signup.body)
  | AdminLogin (b : Login.body)
  | SubmitComplaint (b : Submit.body) (file : option Submit.file)
  | GetComplaints
  | UpdateStatus (date : string) (status : field)
  | GetStatus
  | PostEvent (b : PostEvent.body)
  | GetEvents
  | PostFeedback (b : PostFeedback.body)
  | GetFeedback.

(** [{ ...complaint._doc, image: ... }] *)
Module ComplaintView.
Record t := mk { _doc : Complaint.t; image : option string }.
End ComplaintView.

(** A status record whose [complaintId] was populated with the three
    selected fields of the complaint ([None]: no such complaint). *)
Module StatusView.
Record t := mk {
  record : Status.t;
  populated : option (field * field * field)
}.
End StatusView.

Inductive Payload :=
  | JError (error : string)
  | JMessage (message : string)
  | JSuccess (success : bool) (text : string)
  | JComplaints (l : list ComplaintView.t)
  | JStatuses (l : list StatusView.t)
  | JEvents (l : list Event.t)
  | JFeedbacks (l : list Feedback.t).

Record Response := res { code : nat; payload : Payload }.

(** ** Store operations *)

(** [Model.findOne(filter)]: the first document, in natural order,
    that matches.  A filter field that is [undefined] is sent as
    [null] and matches the documents that lack the field, which is the
    equality of two [field]s.  Natural order is what a collection scan
    gives, as for the lookup by [date]; for the [$or] lookup on the
    indexed [email] and [username], which of two different matching
    accounts comes back is the database's choice, and the statements
    about it below do not depend on that choice. *)
Definition findOne {A} (P : A -> Prop) `{forall x, Decision (P x)}
    (coll : list A) : option A :=
  snd <$> list_find P coll.

(** The unique indexes on [username] and on [email]. *)
Definition unique_ok (d : Account.t) (coll : list Account.t) : bool :=
  forallb (fun e => negb (bool_decide (Account.username e = Account.username d))
                    && negb (bool_decide (Account.email e = Account.email d))) coll.

(** [doc.save()] of a new account: validation, then the insert. *)
Definition insert_account (d : Account.t) (coll : list Account.t)
    : option (list Account.t) :=
  if Account.validate d && unique_ok d coll then Some (coll ++ [d]) else None.

Definition insert_complaint (d : Complaint.t) (s : Store) : option Store :=
  if Complaint.validate d then Some (set_complaints (complaints s ++ [d]) s) else None.

Definition insert_status (d : Status.t) (s : Store) : option Store :=
  if Status.validate d then Some (set_statuses (statuses s ++ [d]) s) else None.

(** [doc.save()] of a complaint that was read from the store: after
    validation, the document with its [_id] is overwritten. *)
Definition replace_complaint (d : Complaint.t) (coll : list Complaint.t)
    : list Complaint.t :=
  match list_find (fun e => Complaint._id e = Complaint._id d) coll with
  | Some (i, _) => <[i := d]> coll
  | None => coll
  end.

Definition update_complaint (d : Complaint.t) (s : Store) : option Store :=
  if Complaint.validate d
  then Some (set_complaints (replace_complaint d (complaints s)) s)
  else None.

(** ** The request handlers *)

Section Handlers.
Context (rt : Runtime).
(** The time at which the request is served ([Date.now()],
    [new Date()]). *)
Context (now : Z).

(** [POST /user/signup] (lines 83-101).  Every [catch] block of the
    file answers 500; that is where a rejected [hash] or [save()] ends. *)
Definition user_signup (s : Store) (b : Signup.body) : Store * Response :=
  let username := Signup.username b in
  let email := Signup.email b in
  let password := Signup.password b in
  match findOne (fun d => Account.email d = email \/ Account.username d = username)
                (users s) with
  | Some existingUser =>
      (s, res 400 (JError (if bool_decide (Account.email existingUser = email)
                           then "Email already registered"
                           else "Username already taken")))
  | None =>
      match bcrypt_hash password 10 with
      | None => (s, res 500 (JError "Signup failed. Please try again."))
      | Some hashedPassword =>
          let newUser := Account.mk username email hashedPassword in
          match insert_account newUser (users s) with
          | None => (s, res 500 (JError "Signup failed. Please try again."))
          | Some l => (set_users l s, res 201 (JMessage "User signup successful!"))
          end
      end
  end.

(** [POST /user/login] (lines 103-121) *)
Definition user_login (s : Store) (b : Login.body) : Store * Response :=
  let username := Login.username b in
  let password := Login.password b in
  match findOne (fun d => Account.username d = username) (users s) with
  | None => (s, res 401 (JError "Invalid username"))
  | Some user =>
      match bcrypt_compare password (Account.password user) with
      | None => (s, res 500 (JError "Login failed. Please try again."))
      | Some false => (s, res 401 (JError "Invalid password"))
      | Some true => (s, res 200 (JMessage "Login successful!"))
      end
  end.

(** [POST /admin/signup] (lines 124-152).  After the first check
    [email] is a non-empty string, so [email.endsWith] does not throw. *)
Definition admin_signup (s : Store) (b : Signup.body) : Store * Response :=
  let username := Signup.username b in
  let email := Signup.email b in
  let password := Signup.password b in
  if falsy username || falsy email || falsy password
  then (s, res 400 (JError "All fields are required"))
  else
    match email with
    | None => (s, res 500 (JError "Admin signup failed. Please try again."))
    | Some e =>
        if negb (endsWith e "@admin.com")
        then (s, res 400 (JError "Email must end with @admin.com"))
        else
          match findOne (fun d => Account.email d = email \/ Account.username d = username)
                        (admins s) with
          | Some existingAdmin =>
              (s, res 400 (JError (if bool_decide (Account.email existingAdmin = email)
                                   then "Email already registered"
                                   else "Username already taken")))
          | None =>
              match bcrypt_hash password 10 with
              | None => (s, res 500 (JError "Admin signup failed. Please try again."))
              | Some hashedPassword =>
                  let newAdmin := Account.mk username email hashedPassword in
                  match insert_account newAdmin (admins s) with
                  | None => (s, res 500 (JError "Admin signup failed. Please try again."))
                  | Some l => (set_admins l s, res 201 (JMessage "Admin signup successful!"))
                  end
              end
          end
    end.

(** [POST /admin/login] (lines 154-173) *)
Definition admin_login (s : Store) (b : Login.body) : Store * Response :=
  let username := Login.username b in
  let password := Login.password b in
  match findOne (fun d => Account.username d = username) (admins s) with
  | None => (s, res 401 (JError "Invalid username"))
  | Some admin =>
      match bcrypt_compare password (Account.password admin) with
      | None => (s, res 500 (JError "Login failed. Please try again."))
      | Some false => (s, res 401 (JError "Invalid password"))
      | Some true => (s, res 200 (JMessage "Admin login successful!"))
      end
  end.

(** [new Complaint({...})] of [POST /submit-complaint] (lines 180-194),
    with the schema defaults and timestamps filled in, and [req.file]
    copied into [image] when there is one. *)
Definition new_complaint (cid : ObjectId) (b : Submit.body)
    (file : option Submit.file) : Complaint.t :=
  let location := Submit.location b in
  let complaint :=
    Complaint.mk cid (Submit.username b) (Submit.complaintText b)
      (Submit.date b ≫= SchemaDate_cast rt)
      location (Submit.subLocation b)
      (if bool_decide (location = Some "mess") || bool_decide (location = Some "garden")
       then None else Submit.roomNo b)
      None (Some "Yet to Begin") now now in
  match file with
  | Some f =>
      Complaint.set_image
        (Some (Image.mk (Submit.buffer f) (Submit.mimetype f))) complaint
  | None => complaint
  end.

(** [POST /submit-complaint] (lines 176-212) *)
Definition submit_complaint (s : Store) (b : Submit.body)
    (file : option Submit.file) : Store * Response :=
  let '(cid, s1) := newObjectId s in
  let complaint := new_complaint cid b file in
  match insert_complaint complaint s1 with
  | None => (s1, res 500 (JError "Failed to submit complaint"))
  | Some s2 =>
      let '(sid, s3) := newObjectId s2 in
      let initialStatus :=
        Status.mk sid (Complaint._id complaint) (Complaint.complaintText complaint)
          (Complaint.location complaint) (Complaint.subLocation complaint)
          (Some "Yet to Begin") now in
      match insert_status initialStatus s3 with
      | None => (s3, res 500 (JError "Failed to submit complaint"))
      | Some s4 => (s4, res 201 (JMessage "Complaint submitted successfully!"))
      end
  end.

(** The callback of [complaints.map] in [GET /get-complaints]
    (lines 217-226). *)
Definition complaint_view (complaint : Complaint.t) : ComplaintView.t :=
  match Complaint.image complaint with
  | Some img =>
      let base64Image := base64 (Image.data img) in
      ComplaintView.mk complaint
        (Some ("data:" +:+ Image.contentType img +:+ ";base64," +:+ base64Image))
  | None => ComplaintView.mk complaint None
  end.

(** [GET /get-complaints] (lines 214-233) *)
Definition get_complaints (s : Store) : Store * Response :=
  let complaintsWithImages := map complaint_view (complaints s) in
  (s, res 200 (JComplaints complaintsWithImages)).

(** [POST /update-status/:date] (lines 236-265).  An Invalid Date in
    the filter of [findOne] is a cast error, which lands in the [catch]
    block. *)
Definition update_status (s : Store) (date : string) (status : field)
    : Store * Response :=
  match Date_parse rt date with
  | None => (s, res 500 (JMessage "Failed to update status"))
  | Some d =>
      match findOne (fun c => Complaint.date c = Some d) (complaints s) with
      | None => (s, res 404 (JMessage "Complaint not found"))
      | Some complaint =>
          let complaint := Complaint.set_status status complaint in
          let complaint := Complaint.set_updatedAt now complaint in
          match update_complaint complaint s with
          | None => (s, res 500 (JMessage "Failed to update status"))
          | Some s1 =>
              let '(sid, s2) := newObjectId s1 in
              let newStatus :=
                Status.mk sid (Complaint._id complaint)
                  (Complaint.complaintText complaint) (Complaint.location complaint)
                  (Complaint.subLocation complaint) status now in
              match insert_status newStatus s2 with
              | None => (s2, res 500 (JMessage "Failed to update status"))
              | Some s3 => (s3, res 200 (JMessage "Status updated successfully"))
              end
          end
      end
  end.

(** [populate("complaintId", "complaintText location subLocation")] *)
Definition populate (s : Store) (r : Status.t) : StatusView.t :=
  StatusView.mk r
    ((fun c => (Complaint.complaintText c, Complaint.location c, Complaint.subLocation c))
       <$> findOne (fun c => Complaint._id c = Status.complaintId r) (complaints s)).

(** [GET /get-status] (lines 267-275) *)
Definition get_status (s : Store) : Store * Response :=
  (s, res 200 (JStatuses (map (populate s) (statuses s)))).

(** [POST /admin/post-event] (lines 278-296) *)
Definition post_event (s : Store) (b : PostEvent.body) : Store * Response :=
  let event :=
    Event.mk (PostEvent.date b) (PostEvent.department b) (PostEvent.title b)
      (PostEvent.venue b) (PostEvent.time b) (PostEvent.timePeriod b)
      (PostEvent.description b) in
  if Event.validate event
  then (set_events (events s ++ [event]) s,
        res 201 (JSuccess true "Event posted successfully!"))
  else (s, res 500 (JSuccess false "Failed to post event")).

(** [GET /events] (lines 298-306) *)
Definition get_events (s : Store) : Store * Response :=
  (s, res 200 (JEvents (events s))).

(** [POST /api/feedback] (lines 309-319) *)
Definition post_feedback (s : Store) (b : PostFeedback.body) : Store * Response :=
  let feedback :=
    Feedback.mk (PostFeedback.date b) (PostFeedback.description b)
      (PostFeedback.rating b) in
  if Feedback.validate feedback
  then (set_feedbacks (feedbacks s ++ [feedback]) s,
        res 201 (JSuccess true "Feedback submitted successfully!"))
  else (s, res 500 (JSuccess false "Failed to submit feedback")).

(** [GET /api/feedback] (lines 321-329) *)
Definition get_feedback (s : Store) : Store * Response :=
  (s, res 200 (JFeedbacks (feedbacks s))).

(** The router. *)
Definition handle (s : Store) (r : Request) : Store * Response :=
  match r with
  | UserSignup b => user_signup s b
  | UserLogin b => user_login s b
  | AdminSignup b => admin_signup s b
  | AdminLogin b => admin_login s b
  | SubmitComplaint b file => submit_complaint s b file
  | GetComplaints => get_complaints s
  | UpdateStatus date status => update_status s date status
  | GetStatus => get_status s
  | PostEvent b => post_event s b
  | GetEvents => get_events s
  | PostFeedback b => post_feedback s b
  | GetFeedback => get_feedback s
  end.
End Handlers.

(** ** Properties of the store *)

(** The required paths of the [Complaint] schema, read off a
    submission: three non-empty strings and a date that casts. *)
Definition required_present (rt : Runtime) (b : Submit.body) : bool :=
  negb (falsy (Submit.username b)) && negb (falsy (Submit.complaintText b))
  && bool_decide (is_Some (Submit.date b ≫= SchemaDate_cast rt))
  && negb (falsy (Submit.location b)).

(** Every complaint has a status record that points at it. *)
Definition tracked (s : Store) : Prop :=
  forall c, c ∈ complaints s ->
    exists r, r ∈ statuses s /\ Status.complaintId r = Complaint._id c.

(** The stored complaints passed validation, their [_id]s are distinct,
    and no [_id] or reference is ahead of the [ObjectId] supply. *)
Record wf (s : Store) : Prop := mk_wf {
  wf_valid : Forall (fun c => Complaint.validate c = true) (complaints s);
  wf_nodup : NoDup (Complaint._id <$> complaints s);
  wf_ids : Forall (fun c => (Complaint._id c < nextId s)%nat) (complaints s);
  wf_refs : Forall (fun r => (Status.complaintId r < nextId s)%nat) (statuses s)
}.

(** The states the server can be in: it starts empty and serves
    requests one after the other. *)
Inductive reachable (rt : Runtime) : Store -> Prop :=
  | reach_empty : reachable rt emptyStore
  | reach_step s now r :
      reachable rt s -> reachable rt (handle rt now s r).1.

(** The status record that [POST /submit-complaint] files with a new
    complaint. *)
Definition initial_status (now : Z) (sid : ObjectId) (c : Complaint.t) : Status.t :=
  Status.mk sid (Complaint._id c) (Complaint.complaintText c)
    (Complaint.location c) (Complaint.subLocation c) (Some "Yet to Begin") now.

(** The complaint as [POST /update-status/:date] writes it back, and
    the status record it appends. *)
Definition updated (now : Z) (st : field) (c : Complaint.t) : Complaint.t :=
  Complaint.set_updatedAt now (Complaint.set_status st c).

Definition status_record (now : Z) (sid : ObjectId) (st : field) (c : Complaint.t)
    : Status.t :=
  Status.mk sid (Complaint._id c) (Complaint.complaintText c)
    (Complaint.location c) (Complaint.subLocation c) st now.

(** The requests that leave complaints, status records and the
    [ObjectId] supply alone. *)
Definition same_tracking (s s' : Store) : Prop :=
  complaints s' = complaints s /\ statuses s' = statuses s /\ nextId s' = nextId s.

(** The two account classes and their collections. *)
Inductive AccountClass := User | Admin.

Definition accounts (cls : AccountClass) (s : Store) : list Account.t :=
  match cls with
  | User => users s
  | Admin => admins s
  end.

Definition signup (cls : AccountClass) (s : Store) (b : Signup.body)
    : Store * Response :=
  match cls with
  | User => user_signup s b
  | Admin => admin_signup s b
  end.


(** A runtime for the examples: it knows the time value of the ISO
    dates that they use, 2024-01-01 and 2024-03-15 at midnight UTC. *)
Definition iso_dates (s : string) : option Z :=
  if String.eqb s "2024-01-01" then Some 1704067200000
  else if String.eqb s "2024-03-15" then Some 1710460800000
  else None.

Definition sample_runtime : Runtime :=
  {| Date_parse := iso_dates; SchemaDate_cast := iso_dates |}.

(** Requests and stores for the examples. *)
Definition tap_report : Submit.body :=
  Submit.mk (Some "ravi") (Some "Tap leaking") (Some "2024-01-01")
    (Some "hostel") (Some "B block") (Some "204").

Definition mess_report : Submit.body :=
  Submit.mk (Some "sita") (Some "Food spilled") (Some "2024-03-15")
    (Some "mess") None (Some "12").

Definition unsigned_report : Submit.body :=
  Submit.mk None (Some "Tap leaking") (Some "2024-01-01") (Some "hostel") None None.

Definition png_upload : Submit.file :=
  Submit.mkFile [x89; x50; x4e; x47] "image/png".

Definition alice : Signup.body :=
  Signup.mk (Some "alice") (Some "alice@svecw.edu.in") (Some "wonderland").

Definition bob : Signup.body :=
  Signup.mk (Some "bob") (Some "bob@svecw.edu.in") (Some "builder").

Definition warden : Signup.body :=
  Signup.mk (Some "warden") (Some "warden@admin.com") (Some "keys").

Definition one_complaint : Store :=
  (submit_complaint sample_runtime 100 emptyStore tap_report None).1.

Definition mess_complaint : Store :=
  (submit_complaint sample_runtime 100 emptyStore mess_report None).1.

Definition one_user : Store := (user_signup emptyStore alice).1.

Definition two_users : Store := (user_signup one_user bob).1.

(** Signing in, for either class. *)
Definition login (cls : AccountClass) (s : Store) (b : Login.body)
    : Store * Response :=
  match cls with
  | User => user_login s b
  | Admin => admin_login s b
  end.

(** What the schema and the unique indexes promise of an account
    collection: the documents validate, and no username and no email
    occurs twice. *)
Definition accounts_ok (l : list Account.t) : Prop :=
  Forall (fun d => Account.validate d = true) l
  /\ NoDup (Account.username <$> l)
  /\ NoDup (Account.email <$> l).

(** Every email of the collection ends with the admin domain. *)
Definition admin_domain (l : list Account.t) : Prop :=
  Forall (fun d => exists e, Account.email d = Some e
                             /\ endsWith e "@admin.com" = true) l.

(** Two versions of a complaint that differ at most in [status] and
    [updatedAt]. *)
Definition same_report (c c' : Complaint.t) : Prop :=
  Complaint._id c' = Complaint._id c
  /\ Complaint.username c' = Complaint.username c
  /\ Complaint.complaintText c' = Complaint.complaintText c
  /\ Complaint.date c' = Complaint.date c
  /\ Complaint.location c' = Complaint.location c
  /\ Complaint.subLocation c' = Complaint.subLocation c
  /\ Complaint.roomNo c' = Complaint.roomNo c
  /\ Complaint.image c' = Complaint.image c
  /\ Complaint.createdAt c' = Complaint.createdAt c.

(** The status record [r] points at a stored complaint and carries
    that complaint's text, location and sub-location. *)
Definition mirrors (s : Store) (r : Status.t) : Prop :=
  exists c, c ∈ complaints s
    /\ Complaint._id c = Status.complaintId r
    /\ Complaint.complaintText c = Status.complaintText r
    /\ Complaint.location c = Status.location r
    /\ Complaint.subLocation c = Status.subLocation r.

Definition history_ok (s : Store) : Prop :=
  Forall (fun r => Status.validate r = true /\ mirrors s r) (statuses s).

(** The oldest status record of the complaint [c] says
    "Yet to Begin". *)
Definition opens_history (s : Store) (c : Complaint.t) : Prop :=
  exists i r,
    list_find (fun r => Status.complaintId r = Complaint._id c) (statuses s)
    = Some (i, r)
    /\ Status.status r = Some "Yet to Begin".

(** The six collections are the same (the [ObjectId] supply may have
    moved). *)
Definition same_collections (s s' : Store) : Prop :=
  users s' = users s /\ admins s' = admins s
  /\ complaints s' = complaints s /\ statuses s' = statuses s
  /\ events s' = events s /\ feedbacks s' = feedbacks s.

(** The invariants of the running server, together. *)
Record sound (s : Store) : Prop := mk_sound {
  sound_wf : wf s;
  sound_users : accounts_ok (users s);
  sound_admins : accounts_ok (admins s);
  sound_domain : admin_domain (admins s);
  sound_history : history_ok s;
  sound_opens : forall c, c ∈ complaints s -> opens_history s c
}.

(** The server over a run of requests, each with the time it is
    served at. *)
Definition serve (rt : Runtime) (s : Store) (run : list (Z * Request)) : Store :=
  foldl (fun s req => (handle rt req.1 s req.2).1) s run.

(** [s'] has everything [s] has, in the same places: each collection
    of [s] is an initial part of the collection of [s'] (for the
    complaints, which are rewritten in place, this is said of their
    [_id]s). *)
Definition grows (s s' : Store) : Prop :=
  users s `prefix_of` users s'
  /\ admins s `prefix_of` admins s'
  /\ (Complaint._id <$> complaints s) `prefix_of` (Complaint._id <$> complaints s')
  /\ statuses s `prefix_of` statuses s'
  /\ events s `prefix_of` events s'
  /\ feedbacks s `prefix_of` feedbacks s'.

(** The conditions of the [Event] and [Feedback] schemas, on the
    request. *)
Definition event_accepted (b : PostEvent.body) : Prop :=
  falsy (PostEvent.date b) = false /\ falsy (PostEvent.department b) = false
  /\ falsy (PostEvent.title b) = false /\ falsy (PostEvent.venue b) = false
  /\ falsy (PostEvent.time b) = false
  /\ (PostEvent.timePeriod b = Some "AM" \/ PostEvent.timePeriod b = Some "PM").

Definition feedback_accepted (b : PostFeedback.body) : Prop :=
  falsy (PostFeedback.date b) = false /\ falsy (PostFeedback.description b) = false
  /\ exists n, PostFeedback.rating b = Some n.

(** More requests for the examples. *)
Definition sports_day : PostEvent.body :=
  PostEvent.mk (Some "2024-03-15") (Some "Physical Education") (Some "Sports day")
    (Some "Main ground") (Some "9:30") (Some "AM") None.

Definition good_feedback : PostFeedback.body :=
  PostFeedback.mk (Some "2024-03-15") (Some "Cleaned within a day") (Some 5).

Definition busy_store : Store :=
  (handle sample_runtime 400
     (handle sample_runtime 300
        (handle sample_runtime 200
           (handle sample_runtime 150 one_complaint (UserSignup alice)).1
           (AdminSignup warden)).1
        (SubmitComplaint mess_report (Some png_upload))).1
     (UpdateStatus "2024-01-01" (Some "In Progress"))).1.

(** ** Basic facts *)

Lemma falsy_false (x : field) :
  falsy x = false <-> exists s, x = Some s /\ s <> "".
Proof.
  destruct x as [s|]; simpl.
  - rewrite String.eqb_neq. split.
    + intros H. exists s. split; [reflexivity | exact H].
    + intros (s' & [= <-] & H). exact H.
  - split; [discriminate | intros (s & [=] & _)].
Qed.

Lemma findOne_Some {A} (P : A -> Prop) `{forall x, Decision (P x)} (l : list A) (x : A) :
  findOne P l = Some x ->
  exists i, list_find P l = Some (i, x) /\ l !! i = Some x /\ P x.
Proof.
  unfold findOne. destruct (list_find P l) as [[i y]|] eqn:E; simpl; [|discriminate].
  intros [= ->]. exists i. apply list_find_Some in E as (Hl & HP & _). auto.
Qed.

Lemma findOne_None {A} (P : A -> Prop) `{forall x, Decision (P x)} (l : list A) :
  findOne P l = None <-> Forall (fun x => ~ P x) l.
Proof.
  unfold findOne. destruct (list_find P l) as [[i y]|] eqn:E; simpl.
  - split; [discriminate|]. intros F.
    pose proof (proj2 (list_find_None P l) F). congruence.
  - split; [|reflexivity]. intros _. exact (proj1 (list_find_None P l) E).
Qed.

Lemma findOne_is_Some {A} (P : A -> Prop) `{forall x, Decision (P x)} (l : list A) (x : A) :
  x ∈ l -> P x -> exists y, findOne P l = Some y.
Proof.
  intros Hin HP. destruct (list_find_elem_of P l x Hin HP) as [[i y] E].
  exists y. unfold findOne. rewrite E. reflexivity.
Qed.

(** [endsWith] is the suffix test. *)
Lemma substring_full (q : string) : substring 0 (String.length q) q = q.
Proof. induction q as [|b q IH]; simpl; [reflexivity | by rewrite IH]. Qed.

Lemma substring_app_r (p q : string) :
  substring (String.length p) (String.length q) (p +:+ q) = q.
Proof.
  induction p as [|a p IH]; simpl; [apply substring_full | exact IH].
Qed.

Lemma substring_split (n : nat) (s : string) :
  (n <= String.length s)%nat ->
  s = substring 0 n s +:+ substring n (String.length s - n) s.
Proof.
  revert s. induction n as [|n IH]; intros s Hn.
  - simpl. rewrite Nat.sub_0_r.
    assert (E : substring 0 0 s = "") by (destruct s; reflexivity).
    rewrite E. simpl. symmetry. apply substring_full.
  - destruct s as [|a s]; simpl in *; [lia|].
    change (String a s
            = String a (substring 0 n s +:+ substring n (String.length s - n) s)).
    f_equal. apply IH. lia.
Qed.

Lemma endsWith_spec (s suffix : string) :
  endsWith s suffix = true <-> exists p, s = p +:+ suffix.
Proof.
  unfold endsWith. rewrite andb_true_iff, Nat.leb_le, String.eqb_eq. split.
  - intros [Hle Hsub].
    exists (substring 0 (String.length s - String.length suffix) s).
    pose proof (substring_split (String.length s - String.length suffix) s) as E.
    replace (String.length s - (String.length s - String.length suffix))%nat
      with (String.length suffix) in E by lia.
    rewrite Hsub in E. apply E. lia.
  - intros [p ->].
    assert (L : String.length (p +:+ suffix)
                = (String.length p + String.length suffix)%nat).
    { clear. induction p as [|a p IH]; simpl; [reflexivity | by rewrite IH]. }
    rewrite L. split; [lia|].
    replace (String.length p + String.length suffix - String.length suffix)%nat
      with (String.length p) by lia.
    apply substring_app_r.
Qed.

(** ** Submitting a complaint *)

Section Submission.
Context (rt : Runtime) (now : Z).

Lemma new_complaint_validate cid b file :
  Complaint.validate (new_complaint rt now cid b file) = required_present rt b.
Proof. destruct file; reflexivity. Qed.

Lemma new_complaint_id cid b file :
  Complaint._id (new_complaint rt now cid b file) = cid.
Proof. destruct file; reflexivity. Qed.

Lemma new_complaint_status cid b file :
  Complaint.status (new_complaint rt now cid b file) = Some "Yet to Begin".
Proof. destruct file; reflexivity. Qed.

Lemma new_complaint_roomNo cid b file :
  Complaint.roomNo (new_complaint rt now cid b file) =
  if bool_decide (Submit.location b = Some "mess")
     || bool_decide (Submit.location b = Some "garden")
  then None else Submit.roomNo b.
Proof. destruct file; reflexivity. Qed.

Lemma initial_status_validate sid c :
  Complaint.validate c = true -> Status.validate (initial_status now sid c) = true.
Proof.
  unfold Complaint.validate, Status.validate. simpl.
  destruct (falsy (Complaint.username c)), (falsy (Complaint.complaintText c)),
    (falsy (Complaint.location c)), (bool_decide (is_Some (Complaint.date c)));
    simpl; done.
Qed.

(** A submission with its required fields is stored, together with
    its first status record. *)
Lemma submit_complaint_accepts s b file :
  required_present rt b = true ->
  submit_complaint rt now s b file =
  (let c := new_complaint rt now (nextId s) b file in
   mkStore (users s) (admins s) (complaints s ++ [c])
     (statuses s ++ [initial_status now (S (nextId s)) c])
     (events s) (feedbacks s) (S (S (nextId s))),
   res 201 (JMessage "Complaint submitted successfully!")).
Proof.
  intros Hreq. unfold submit_complaint, insert_complaint. simpl.
  rewrite new_complaint_validate, Hreq.
  unfold insert_status. simpl.
  fold (initial_status now (S (nextId s)) (new_complaint rt now (nextId s) b file)).
  rewrite initial_status_validate by (by rewrite new_complaint_validate).
  reflexivity.
Qed.

(** A submission that lacks one is refused by the schema: nothing is
    stored. *)
Lemma submit_complaint_rejects s b file :
  required_present rt b = false ->
  submit_complaint rt now s b file =
  ((newObjectId s).2, res 500 (JError "Failed to submit complaint")).
Proof.
  intros Hreq. unfold submit_complaint, insert_complaint. simpl.
  rewrite new_complaint_validate, Hreq. reflexivity.
Qed.

End Submission.

(** ** Updating a status *)

Lemma in_enum_spec (st : string) :
  Status.in_enum (Some st) = true <-> st ∈ Status.enum.
Proof.
  unfold Status.in_enum. rewrite existsb_exists, list_elem_of_In. split.
  - intros (x & Hx & E). apply String.eqb_eq in E. by subst.
  - intros H. exists st. split; [exact H | apply String.eqb_refl].
Qed.

Lemma enum_not_falsy (st : string) : st ∈ Status.enum -> falsy (Some st) = false.
Proof.
  unfold Status.enum. rewrite !elem_of_cons, elem_of_nil.
  intros [->|[->|[->|[]]]]; reflexivity.
Qed.

(** Overwriting by [_id] hits the position the document was read
    from, as long as [_id]s are distinct. *)
Lemma replace_complaint_insert (l : list Complaint.t) (i : nat) (c c' : Complaint.t) :
  NoDup (Complaint._id <$> l) ->
  l !! i = Some c ->
  Complaint._id c' = Complaint._id c ->
  replace_complaint c' l = <[i := c']> l.
Proof.
  intros Hnd Hi Hid. unfold replace_complaint.
  destruct (list_find _ l) as [[j e]|] eqn:E.
  - apply list_find_Some in E as (Hj & He & _).
    assert (j = i) as ->; [|reflexivity].
    apply (NoDup_lookup _ j i (Complaint._id c) Hnd); rewrite list_lookup_fmap.
    + rewrite Hj. simpl. congruence.
    + rewrite Hi. reflexivity.
  - apply list_find_None in E. rewrite Forall_forall in E.
    exfalso. apply (E c); [|congruence].
    eapply list_elem_of_lookup_2; eassumption.
Qed.

Section Update.
Context (rt : Runtime) (now : Z).

Lemma updated_validate st c : Complaint.validate (updated now st c) = Complaint.validate c.
Proof. reflexivity. Qed.

Lemma status_record_validate sid st c :
  Complaint.validate c = true ->
  Status.validate (status_record now sid st c) = negb (falsy st) && Status.in_enum st.
Proof.
  unfold Complaint.validate, Status.validate. simpl.
  destruct (falsy (Complaint.username c)), (falsy (Complaint.complaintText c)),
    (falsy (Complaint.location c)), (bool_decide (is_Some (Complaint.date c)));
    simpl; done.
Qed.

(** The handler, once the lookup has found the complaint [c] at
    position [i]: the complaint is overwritten in place, and the new
    status record is stored when the schema accepts its status. *)
Lemma update_status_found s date st d i c :
  Forall (fun c => Complaint.validate c = true) (complaints s) ->
  NoDup (Complaint._id <$> complaints s) ->
  Date_parse rt date = Some d ->
  list_find (fun c => Complaint.date c = Some d) (complaints s) = Some (i, c) ->
  update_status rt now s date st =
  let l := <[i := updated now st c]> (complaints s) in
  if negb (falsy st) && Status.in_enum st
  then (mkStore (users s) (admins s) l
          (statuses s ++ [status_record now (nextId s) st c])
          (events s) (feedbacks s) (S (nextId s)),
        res 200 (JMessage "Status updated successfully"))
  else (mkStore (users s) (admins s) l (statuses s) (events s) (feedbacks s)
          (S (nextId s)),
        res 500 (JMessage "Failed to update status")).
Proof.
  intros Hval Hnd Hd Hfind. unfold update_status, findOne. rewrite Hd, Hfind. simpl.
  pose proof Hfind as (Hi & _ & _)%list_find_Some.
  assert (Hc : Complaint.validate c = true).
  { rewrite Forall_forall in Hval. apply Hval.
    eapply list_elem_of_lookup_2; eassumption. }
  unfold update_complaint. fold (updated now st c).
  rewrite updated_validate, Hc. simpl.
  rewrite (replace_complaint_insert _ i c) by done.
  unfold insert_status. simpl.
  change (Status.mk (nextId s) (Complaint._id c) (Complaint.complaintText c)
            (Complaint.location c) (Complaint.subLocation c) st now)
    with (status_record now (nextId s) st c).
  rewrite status_record_validate by done.
  destruct (negb (falsy st) && Status.in_enum st); reflexivity.
Qed.

(** No complaint with that date: [404], and the store is as it was. *)
Lemma update_status_missing s date st d :
  Date_parse rt date = Some d ->
  Forall (fun c => Complaint.date c <> Some d) (complaints s) ->
  update_status rt now s date st = (s, res 404 (JMessage "Complaint not found")).
Proof.
  intros Hd Hno. unfold update_status. rewrite Hd.
  rewrite (proj2 (findOne_None _ _) Hno). reflexivity.
Qed.

End Update.

(** ** What each request does to the complaints and their history *)

Lemma replace_complaint_ids (d : Complaint.t) (l : list Complaint.t) :
  Complaint._id <$> replace_complaint d l = Complaint._id <$> l.
Proof.
  unfold replace_complaint. destruct (list_find _ l) as [[j e]|] eqn:E; [|reflexivity].
  apply list_find_Some in E as (Hj & He & _).
  rewrite list_fmap_insert. apply list_insert_id.
  rewrite list_lookup_fmap, Hj. simpl. congruence.
Qed.

Lemma replace_complaint_valid (d : Complaint.t) (l : list Complaint.t) :
  Complaint.validate d = true ->
  Forall (fun c => Complaint.validate c = true) l ->
  Forall (fun c => Complaint.validate c = true) (replace_complaint d l).
Proof.
  intros Hd Hl. unfold replace_complaint.
  destruct (list_find _ l) as [[j e]|]; [|exact Hl].
  apply Forall_insert; assumption.
Qed.

Lemma same_tracking_refl s : same_tracking s s.
Proof. by repeat split. Qed.

Lemma user_signup_tracking s b : same_tracking s (user_signup s b).1.
Proof.
  unfold user_signup. destruct (findOne _ (users s)); [apply same_tracking_refl|].
  destruct (bcrypt_hash _ _); [|apply same_tracking_refl].
  destruct (insert_account _ _); simpl; by repeat split.
Qed.

Lemma admin_signup_tracking s b : same_tracking s (admin_signup s b).1.
Proof.
  unfold admin_signup.
  destruct (_ || _); [apply same_tracking_refl|].
  destruct (Signup.email b); [|apply same_tracking_refl].
  destruct (negb _); [apply same_tracking_refl|].
  destruct (findOne _ (admins s)); [apply same_tracking_refl|].
  destruct (bcrypt_hash _ _); [|apply same_tracking_refl].
  destruct (insert_account _ _); simpl; by repeat split.
Qed.

Lemma user_login_state s b : (user_login s b).1 = s.
Proof.
  unfold user_login. destruct (findOne _ _); [|reflexivity].
  by destruct (bcrypt_compare _ _) as [[]|].
Qed.

Lemma admin_login_state s b : (admin_login s b).1 = s.
Proof.
  unfold admin_login. destruct (findOne _ _); [|reflexivity].
  by destruct (bcrypt_compare _ _) as [[]|].
Qed.

Lemma post_event_tracking s b : same_tracking s (post_event s b).1.
Proof. unfold post_event. destruct (Event.validate _); simpl; by repeat split. Qed.

Lemma post_feedback_tracking s b : same_tracking s (post_feedback s b).1.
Proof. unfold post_feedback. destruct (Feedback.validate _); simpl; by repeat split. Qed.

(** A status update keeps the complaints' [_id]s in place and adds at
    most one record, for a complaint that is there. *)
Lemma update_status_effect rt now s date st :
  let s' := (update_status rt now s date st).1 in
  Complaint._id <$> complaints s' = Complaint._id <$> complaints s
  /\ (Forall (fun c => Complaint.validate c = true) (complaints s) ->
      Forall (fun c => Complaint.validate c = true) (complaints s'))
  /\ (statuses s' = statuses s
      \/ exists r c, statuses s' = statuses s ++ [r] /\ c ∈ complaints s
                     /\ Status.complaintId r = Complaint._id c)
  /\ (nextId s <= nextId s')%nat.
Proof.
  unfold update_status.
  destruct (Date_parse rt date) as [d|]; [|simpl; by auto].
  destruct (findOne _ (complaints s)) as [c|] eqn:F; [|simpl; by auto].
  apply findOne_Some in F as (i & _ & Hi & _).
  unfold update_complaint.
  destruct (Complaint.validate _) eqn:V; [|simpl; by auto].
  unfold insert_status. simpl.
  destruct (Status.validate _); simpl.
  - rewrite replace_complaint_ids. split_and!; [done | | | lia].
    + intros H. by apply replace_complaint_valid.
    + right. eexists _, c. split_and!; [reflexivity | | reflexivity].
      eapply list_elem_of_lookup_2; eassumption.
  - rewrite replace_complaint_ids. split_and!; [done | | by left | lia].
    intros H. by apply replace_complaint_valid.
Qed.

(** The shape of the store after a submission. *)
Lemma submit_complaint_effect rt now s b file :
  let s' := (submit_complaint rt now s b file).1 in
  (complaints s' = complaints s /\ statuses s' = statuses s
   /\ nextId s' = S (nextId s))
  \/ (exists c r, complaints s' = complaints s ++ [c]
        /\ statuses s' = statuses s ++ [r]
        /\ Complaint.validate c = true
        /\ Complaint._id c = nextId s
        /\ Status.complaintId r = nextId s
        /\ nextId s' = S (S (nextId s))).
Proof.
  destruct (required_present rt b) eqn:R.
  - rewrite submit_complaint_accepts by done. right. simpl.
    eexists _, _. split_and!; try reflexivity.
    + by rewrite new_complaint_validate.
    + apply new_complaint_id.
    + apply new_complaint_id.
  - rewrite submit_complaint_rejects by done. left. by simpl.
Qed.

(** ** Invariants of the store *)

Lemma tracked_same s s' : same_tracking s s' -> tracked s -> tracked s'.
Proof. intros (Hc & Hs & _) H c. rewrite Hc, Hs. apply H. Qed.

Lemma wf_same s s' : same_tracking s s' -> wf s -> wf s'.
Proof.
  intros (Hc & Hs & Hn) [? ? ? ?]. split; rewrite ?Hc, ?Hs, ?Hn; assumption.
Qed.

Lemma wf_empty : wf emptyStore.
Proof. split; simpl; constructor. Qed.

Lemma tracked_empty : tracked emptyStore.
Proof. intros c Hc. simpl in Hc. by apply elem_of_nil in Hc. Qed.

Lemma tracked_submit rt now s b file :
  tracked s -> tracked (submit_complaint rt now s b file).1.
Proof.
  intros H.
  destruct (submit_complaint_effect rt now s b file)
    as [(Hc & Hs & _)|(c & r & Hc & Hs & _ & Hid & Hr & _)]; intros c'; rewrite Hc, Hs.
  - apply H.
  - rewrite elem_of_app, list_elem_of_singleton. intros [Hin| ->].
    + destruct (H c' Hin) as (r' & Hr' & E). exists r'.
      split; [|exact E]. apply elem_of_app. by left.
    + exists r. split; [|congruence]. apply elem_of_app. right. by apply list_elem_of_singleton.
Qed.

Lemma tracked_update rt now s date st :
  tracked s -> tracked (update_status rt now s date st).1.
Proof.
  intros H. destruct (update_status_effect rt now s date st) as (Hids & _ & Hs & _).
  intros c' Hc'.
  assert (exists c, c ∈ complaints s /\ Complaint._id c = Complaint._id c') as (c & Hc & E).
  { assert (Hm : Complaint._id c' ∈ Complaint._id <$> complaints s).
    { rewrite <- Hids. apply list_elem_of_fmap. by exists c'. }
    apply list_elem_of_fmap in Hm as (c & E & Hc). by exists c. }
  destruct (H c Hc) as (r & Hr & Er). exists r. split; [|congruence].
  destruct Hs as [-> | (r' & _ & -> & _)]; [exact Hr|].
  apply elem_of_app. by left.
Qed.

Lemma tracked_handle rt now s r : tracked s -> tracked (handle rt now s r).1.
Proof.
  destruct r; simpl.
  - apply tracked_same, user_signup_tracking.
  - by rewrite user_login_state.
  - apply tracked_same, admin_signup_tracking.
  - by rewrite admin_login_state.
  - apply tracked_submit.
  - done.
  - apply tracked_update.
  - done.
  - apply tracked_same, post_event_tracking.
  - done.
  - apply tracked_same, post_feedback_tracking.
  - done.
Qed.

Lemma wf_submit rt now s b file : wf s -> wf (submit_complaint rt now s b file).1.
Proof.
  intros [Hv Hnd Hids Hrefs].
  destruct (submit_complaint_effect rt now s b file)
    as [(Hc & Hs & Hn)|(c & r & Hc & Hs & Hcv & Hid & Hr & Hn)];
    split; rewrite ?Hc, ?Hs, ?Hn.
  - exact Hv.
  - exact Hnd.
  - eapply Forall_impl; [exact Hids|]. simpl. lia.
  - eapply Forall_impl; [exact Hrefs|]. simpl. lia.
  - apply Forall_app. split; [exact Hv|]. by constructor.
  - rewrite fmap_app. apply NoDup_app. split_and!; [exact Hnd | | apply NoDup_singleton].
    intros x Hx. simpl. rewrite list_elem_of_singleton, Hid. intros ->.
    apply list_elem_of_fmap in Hx as (c' & E & Hc').
    rewrite Forall_forall in Hids. specialize (Hids c' Hc'). lia.
  - apply Forall_app. split.
    + eapply Forall_impl; [exact Hids|]. simpl. lia.
    + constructor; [lia | constructor].
  - apply Forall_app. split.
    + eapply Forall_impl; [exact Hrefs|]. simpl. lia.
    + constructor; [lia | constructor].
Qed.

Lemma wf_update rt now s date st : wf s -> wf (update_status rt now s date st).1.
Proof.
  intros [Hv Hnd Hids Hrefs].
  destruct (update_status_effect rt now s date st) as (Hi & Hval & Hs & Hn).
  split.
  - by apply Hval.
  - by rewrite Hi.
  - assert (H1 : Forall (fun x => (x < nextId s)%nat) (Complaint._id <$> complaints s))
      by (by apply Forall_fmap).
    rewrite <- Hi in H1. apply Forall_fmap in H1.
    eapply Forall_impl; [exact H1|]. simpl. intros; lia.
  - destruct Hs as [-> | (r & c & -> & Hc & Hr)].
    + eapply Forall_impl; [exact Hrefs|]. simpl. lia.
    + apply Forall_app. split.
      * eapply Forall_impl; [exact Hrefs|]. simpl. lia.
      * constructor; [|constructor]. rewrite Hr.
        rewrite Forall_forall in Hids. specialize (Hids c Hc). lia.
Qed.

Lemma wf_handle rt now s r : wf s -> wf (handle rt now s r).1.
Proof.
  destruct r; simpl.
  - apply wf_same, user_signup_tracking.
  - by rewrite user_login_state.
  - apply wf_same, admin_signup_tracking.
  - by rewrite admin_login_state.
  - apply wf_submit.
  - done.
  - apply wf_update.
  - done.
  - apply wf_same, post_event_tracking.
  - done.
  - apply wf_same, post_feedback_tracking.
  - done.
Qed.

(** Every state the server reaches is well formed, and every
    complaint in it has its history. *)
Lemma reachable_wf rt s : reachable rt s -> wf s.
Proof. induction 1; [apply wf_empty | by apply wf_handle]. Qed.

Lemma reachable_tracked rt s : reachable rt s -> tracked s.
Proof. induction 1; [apply tracked_empty | by apply tracked_handle]. Qed.

(** ** Claims about complaint submission *)

(** C1, as stated, fails: a submission without a username is refused
    by the schema ([username] is a required path), so no complaint and
    no status record is created and the answer is 500. *)
Lemma C1_counterexample :
  let out := submit_complaint sample_runtime 100 emptyStore unsigned_report None in
  complaints out.1 = complaints emptyStore
  /\ statuses out.1 = statuses emptyStore
  /\ out.2 = res 500 (JError "Failed to submit complaint")
  /\ ~ (exists c, complaints out.1 = complaints emptyStore ++ [c]).
Proof.
  vm_compute. split_and!; try reflexivity.
  intros [c [=]].
Qed.

(** C1, amended: a submission whose required fields are there
    (username, complaintText and location are non-empty strings and
    the date casts to a Date) creates exactly one complaint, with
    status "Yet to Begin", and exactly one status record, with the same
    status, that refers to it; the complaint's [_id] is new, no record
    referred to it before, and nothing else in the store changes.  A
    submission that lacks a required field is answered with 500 and
    creates neither. *)
Theorem C1_submit_creates_one rt now s b file :
  wf s ->
  let out := submit_complaint rt now s b file in
  (required_present rt b = true ->
   exists c r,
     complaints out.1 = complaints s ++ [c]
     /\ Complaint.status c = Some "Yet to Begin"
     /\ statuses out.1 = statuses s ++ [r]
     /\ Status.complaintId r = Complaint._id c
     /\ Status.status r = Some "Yet to Begin"
     /\ (forall c0, c0 ∈ complaints s -> Complaint._id c0 <> Complaint._id c)
     /\ (forall r0, r0 ∈ statuses s -> Status.complaintId r0 <> Complaint._id c)
     /\ users out.1 = users s /\ admins out.1 = admins s
     /\ events out.1 = events s /\ feedbacks out.1 = feedbacks s
     /\ out.2 = res 201 (JMessage "Complaint submitted successfully!"))
  /\ (required_present rt b = false ->
      complaints out.1 = complaints s /\ statuses out.1 = statuses s
      /\ out.2 = res 500 (JError "Failed to submit complaint")).
Proof.
  intros [_ _ Hids Hrefs] out. subst out. split; intros Hreq.
  - rewrite submit_complaint_accepts by done. simpl.
    eexists _, _. split_and!; try reflexivity.
    + apply new_complaint_status.
    + intros c0 Hc0. rewrite new_complaint_id.
      rewrite Forall_forall in Hids. specialize (Hids c0 Hc0). lia.
    + intros r0 Hr0. rewrite new_complaint_id.
      rewrite Forall_forall in Hrefs. specialize (Hrefs r0 Hr0). lia.
  - rewrite submit_complaint_rejects by done. by simpl.
Qed.

Lemma C1_submit_creates_one_witness :
  wf emptyStore /\ required_present sample_runtime tap_report = true
  /\ exists c r,
       complaints one_complaint = [c]
       /\ Complaint.status c = Some "Yet to Begin"
       /\ statuses one_complaint = [r]
       /\ Status.complaintId r = Complaint._id c
       /\ Status.status r = Some "Yet to Begin".
Proof.
  split; [exact wf_empty|]. split; [reflexivity|].
  destruct (proj1 (C1_submit_creates_one sample_runtime 100 emptyStore tap_report None
                     wf_empty) eq_refl)
    as (c & r & Hc & Hcs & Hs & Hr & Hrs & _).
  exists c, r. unfold one_complaint. rewrite Hc, Hs. by split_and!.
Defined.

(** C6: in the complaint that a submission persists, [roomNo] is
    absent when the location is "mess" or "garden", whatever room
    number came with the request, and is the room number of the request
    for every other location. *)
Theorem C6_room_number rt now s b file :
  required_present rt b = true ->
  exists c,
    complaints (submit_complaint rt now s b file).1 = complaints s ++ [c]
    /\ (Submit.location b = Some "mess" \/ Submit.location b = Some "garden" ->
        Complaint.roomNo c = None)
    /\ (Submit.location b <> Some "mess" -> Submit.location b <> Some "garden" ->
        Complaint.roomNo c = Submit.roomNo b).
Proof.
  intros Hreq. rewrite submit_complaint_accepts by done. simpl.
  eexists. split; [reflexivity|]. rewrite new_complaint_roomNo. split.
  - intros [-> | ->]; reflexivity.
  - intros Hm Hg. rewrite !bool_decide_eq_false_2 by done. reflexivity.
Qed.

Lemma C6_room_number_witness :
  required_present sample_runtime mess_report = true
  /\ Submit.roomNo mess_report = Some "12"
  /\ exists c, complaints mess_complaint = [c] /\ Complaint.roomNo c = None.
Proof.
  split; [reflexivity|]. split; [reflexivity|].
  destruct (C6_room_number sample_runtime 100 emptyStore mess_report None eq_refl)
    as (c & Hc & Hmess & _).
  exists c. split; [exact Hc|]. apply Hmess. left. reflexivity.
Defined.

(** Elsewhere the room number is kept. *)
Example room_number_kept :
  Complaint.roomNo <$> complaints one_complaint = [Some "204"].
Proof. reflexivity. Qed.

(** ** Claims about status updates *)

(** C2, as stated, fails: the store holds a complaint with the given
    date, the new status is "Closed", and no status record is appended
    (the [Status] schema refuses a value outside its enum); the answer
    is 500. *)
Lemma C2_counterexample :
  let out := update_status sample_runtime 200 one_complaint "2024-01-01" (Some "Closed") in
  (exists c, c ∈ complaints one_complaint
             /\ Complaint.date c = Date_parse sample_runtime "2024-01-01")
  /\ statuses out.1 = statuses one_complaint
  /\ out.2 = res 500 (JMessage "Failed to update status").
Proof.
  vm_compute. split_and!; try reflexivity.
  eexists. split; [apply list_elem_of_here | reflexivity].
Qed.

(** C2, amended: in a well-formed store that holds a complaint with
    the given date, and for a new status taken from the enum
    "Yet to Begin", "In Progress", "Resolved", the update is answered
    with 200; the first complaint with that date, in store order, gets
    the new status and the current time as [updatedAt] and is otherwise
    as before, the other complaints are untouched; exactly one status
    record is appended, with the new status, the current time and that
    complaint's [_id], text, location and sub-location; the records
    that were there stay as they were. *)
Theorem C2_update_appends rt now s date d st c :
  wf s ->
  Date_parse rt date = Some d ->
  c ∈ complaints s ->
  Complaint.date c = Some d ->
  st ∈ Status.enum ->
  let out := update_status rt now s date (Some st) in
  exists i c0 r,
    complaints s !! i = Some c0
    /\ Complaint.date c0 = Some d
    /\ (forall j c', (j < i)%nat -> complaints s !! j = Some c' ->
                     Complaint.date c' <> Some d)
    /\ complaints out.1 =
       <[i := Complaint.set_updatedAt now (Complaint.set_status (Some st) c0)]>
         (complaints s)
    /\ statuses out.1 = statuses s ++ [r]
    /\ Status.status r = Some st
    /\ Status.updatedAt r = now
    /\ Status.complaintId r = Complaint._id c0
    /\ Status.complaintText r = Complaint.complaintText c0
    /\ Status.location r = Complaint.location c0
    /\ Status.subLocation r = Complaint.subLocation c0
    /\ out.2 = res 200 (JMessage "Status updated successfully").
Proof.
  intros [Hv Hnd _ _] Hd Hc Hcd Hst out. subst out.
  destruct (list_find_elem_of (fun c => Complaint.date c = Some d) _ c Hc Hcd)
    as [[i c0] Hfind].
  rewrite (update_status_found rt now s date (Some st) d i c0) by done.
  rewrite (enum_not_falsy st Hst), (proj2 (in_enum_spec st) Hst). simpl.
  apply list_find_Some in Hfind as (Hi & Hc0 & Hmin).
  exists i, c0, (status_record now (nextId s) (Some st) c0).
  split_and!; try done.
  intros j c' Hj Hc'. by apply (Hmin j c').
Qed.

Lemma C2_update_appends_witness :
  wf one_complaint
  /\ Status.status <$>
       statuses (update_status sample_runtime 200 one_complaint "2024-01-01"
                   (Some "Resolved")).1
     = [Some "Yet to Begin"; Some "Resolved"]
  /\ Complaint.status <$>
       complaints (update_status sample_runtime 200 one_complaint "2024-01-01"
                     (Some "Resolved")).1
     = [Some "Resolved"].
Proof.
  assert (W : wf one_complaint) by (apply wf_submit, wf_empty).
  assert (Hin : new_complaint sample_runtime 100 0%nat tap_report None
                ∈ complaints one_complaint) by apply list_elem_of_here.
  assert (Hen : "Resolved" ∈ Status.enum)
    by (do 2 apply list_elem_of_further; apply list_elem_of_here).
  destruct (C2_update_appends sample_runtime 200 one_complaint "2024-01-01"
              1704067200000 "Resolved" _ W eq_refl Hin eq_refl Hen)
    as (i & c0 & r & Hi & _ & _ & Hc & Hs & Hr & _).
  split; [exact W|].
  rewrite Hs, Hc. destruct i as [|i]; [|discriminate Hi].
  injection Hi as <-. rewrite fmap_app. simpl. rewrite Hr. by split.
Defined.

(** C3: when the route parameter denotes the date [d] and no stored
    complaint has that date, the update is answered with 404
    "Complaint not found" and the store is unchanged: no complaint is
    modified and no status record is created. *)
Theorem C3_update_not_found rt now s date d st :
  Date_parse rt date = Some d ->
  (forall c, c ∈ complaints s -> Complaint.date c <> Some d) ->
  update_status rt now s date st = (s, res 404 (JMessage "Complaint not found")).
Proof.
  intros Hd Hno. apply (update_status_missing rt now s date st d Hd).
  apply Forall_forall. exact Hno.
Qed.

Lemma C3_update_not_found_witness :
  Date_parse sample_runtime "2024-03-15" = Some 1710460800000
  /\ update_status sample_runtime 200 one_complaint "2024-03-15" (Some "Resolved")
     = (one_complaint, res 404 (JMessage "Complaint not found")).
Proof.
  split; [reflexivity|].
  apply (C3_update_not_found sample_runtime 200 one_complaint "2024-03-15" 1710460800000).
  - reflexivity.
  - intros c Hc. apply list_elem_of_singleton in Hc. subst c. discriminate.
Defined.

(** C4, as stated, fails: the complaint is found, the new status
    "Done" is not in the enum of the [Status] schema, and the update is
    answered with 500, not 200; no status record is appended. *)
Lemma C4_counterexample :
  let out := update_status sample_runtime 200 mess_complaint "2024-03-15" (Some "Done") in
  (exists c, c ∈ complaints mess_complaint
             /\ Complaint.date c = Date_parse sample_runtime "2024-03-15")
  /\ code out.2 = 500%nat
  /\ Status.status <$> statuses out.1 = [Some "Yet to Begin"].
Proof.
  vm_compute. split_and!; try reflexivity.
  eexists. split; [apply list_elem_of_here | reflexivity].
Qed.

(** C4, amended: on a matching complaint an update succeeds exactly
    for the status values of the enum "Yet to Begin", "In Progress",
    "Resolved", whatever the complaint's status was before (there is no
    check of the transition); any other string is refused by the enum
    of the [Status] schema: the answer is 500 and no status record is
    appended. *)
Theorem C4_status_values rt now s date d st c :
  wf s ->
  Date_parse rt date = Some d ->
  c ∈ complaints s ->
  Complaint.date c = Some d ->
  let out := update_status rt now s date (Some st) in
  (st ∈ Status.enum ->
   out.2 = res 200 (JMessage "Status updated successfully")
   /\ exists r, statuses out.1 = statuses s ++ [r] /\ Status.status r = Some st)
  /\ (st ∉ Status.enum ->
      out.2 = res 500 (JMessage "Failed to update status")
      /\ statuses out.1 = statuses s).
Proof.
  intros [Hv Hnd _ _] Hd Hc Hcd out. subst out.
  destruct (list_find_elem_of (fun c => Complaint.date c = Some d) _ c Hc Hcd)
    as [[i c0] Hfind].
  rewrite (update_status_found rt now s date (Some st) d i c0) by done.
  split; intros Hst.
  - rewrite (enum_not_falsy st Hst), (proj2 (in_enum_spec st) Hst). simpl.
    split; [reflexivity|]. by eexists.
  - destruct (Status.in_enum (Some st)) eqn:E.
    + by apply in_enum_spec in E.
    + rewrite andb_false_r. by simpl.
Qed.

Lemma C4_status_values_witness :
  wf one_complaint
  /\ (update_status sample_runtime 200 one_complaint "2024-01-01" (Some "In Progress")).2
     = res 200 (JMessage "Status updated successfully")
  /\ (update_status sample_runtime 200 one_complaint "2024-01-01" (Some "Fixed")).2
     = res 500 (JMessage "Failed to update status").
Proof.
  assert (W : wf one_complaint) by (apply wf_submit, wf_empty).
  assert (Hin : new_complaint sample_runtime 100 0%nat tap_report None
                ∈ complaints one_complaint) by apply list_elem_of_here.
  split; [exact W|]. split.
  - apply (C4_status_values sample_runtime 200 one_complaint "2024-01-01"
             1704067200000 "In Progress" _ W eq_refl Hin eq_refl).
    apply list_elem_of_further, list_elem_of_here.
  - apply (C4_status_values sample_runtime 200 one_complaint "2024-01-01"
             1704067200000 "Fixed" _ W eq_refl Hin eq_refl).
    intros H. by repeat (apply elem_of_cons in H as [H|H]; [discriminate H|]);
      apply elem_of_nil in H.
Defined.

(** The complaint itself keeps the refused value: the write to the
    complaint comes first and is not undone. *)
Example refused_status_is_kept :
  Complaint.status <$>
    complaints (update_status sample_runtime 200 mess_complaint "2024-03-15" (Some "Done")).1
  = [Some "Done"].
Proof. reflexivity. Qed.

(** C5: every request keeps the invariant that each stored complaint
    has at least one status record whose [complaintId] is its [_id]. *)
Theorem C5_history_invariant rt now s r :
  tracked s -> tracked (handle rt now s r).1.
Proof. apply tracked_handle. Qed.

Lemma C5_history_invariant_witness :
  tracked one_complaint
  /\ tracked (handle sample_runtime 300 one_complaint
                (SubmitComplaint mess_report (Some png_upload))).1.
Proof.
  assert (T : tracked one_complaint) by (apply tracked_submit, tracked_empty).
  split; [exact T|].
  exact (C5_history_invariant sample_runtime 300 one_complaint
           (SubmitComplaint mess_report (Some png_upload)) T).
Defined.

(** ** Claims about the list of complaints *)

(** Four characters for every three bytes, the last group padded. *)
Lemma base64_length (bs : list byte) :
  String.length (base64 bs) = (4 * ((length bs + 2) / 3))%nat.
Proof.
  assert (G : forall n (l : list byte), (length l < n)%nat ->
            String.length (base64 l) = (4 * ((length l + 2) / 3))%nat).
  { induction n as [|n IH]; intros l Hl; [lia|].
    destruct l as [|a [|b [|c rest]]]; try reflexivity.
    cbn [base64 length String.length]. rewrite IH by (simpl in Hl; lia).
    replace (S (S (S (length rest))) + 2)%nat with (length rest + 2 + 1 * 3)%nat by lia.
    rewrite Nat.div_add by lia. lia. }
  apply (G (S (length bs))). lia.
Qed.

Example base64_rfc4648 :
  base64 [x66; x6f; x6f; x62; x61; x72] = "Zm9vYmFy"
  /\ base64 [x66; x6f; x6f; x62; x61] = "Zm9vYmE="
  /\ base64 [x66; x6f; x6f; x62] = "Zm9vYg=="
  /\ base64 [xff; xfe; x3e] = "//4+".
Proof. by split_and!. Qed.

(** C7: [GET /get-complaints] answers 200 with one view per stored
    complaint, in store order, and leaves the store alone.  The view of
    a complaint with a stored image has, as [image], the string
    "data:" followed by the content type, ";base64," and the base64
    text of the image bytes; the view of a complaint without an image
    has [image] null.  The other fields are the complaint's. *)
Theorem C7_images_as_data_uri s :
  exists views,
    get_complaints s = (s, res 200 (JComplaints views))
    /\ Forall2
         (fun c v =>
            ComplaintView._doc v = c
            /\ ComplaintView.image v =
               match Complaint.image c with
               | Some img =>
                   Some ("data:" +:+ Image.contentType img +:+ ";base64,"
                         +:+ base64 (Image.data img))
               | None => None
               end)
         (complaints s) views.
Proof.
  exists (map complaint_view (complaints s)). split; [reflexivity|].
  induction (complaints s) as [|c l IH]; simpl; constructor; [|exact IH].
  unfold complaint_view. by destruct (Complaint.image c).
Qed.

(** A complaint submitted with a four-byte PNG header, then listed. *)
Example listed_image :
  let s := (submit_complaint sample_runtime 100 emptyStore tap_report (Some png_upload)).1 in
  exists v, (get_complaints s).2 = res 200 (JComplaints [v])
            /\ ComplaintView.image v = Some "data:image/png;base64,iVBORw==".
Proof. eexists. split; reflexivity. Qed.

Example listed_without_image :
  exists v, (get_complaints one_complaint).2 = res 200 (JComplaints [v])
            /\ ComplaintView.image v = None.
Proof. eexists. split; reflexivity. Qed.

(** ** Claims about signing up *)



Lemma lookup_finds_nothing (l : list Account.t) (em u : field) :
  (forall e, e ∈ l -> Account.email e <> em /\ Account.username e <> u) ->
  findOne (fun d => Account.email d = em \/ Account.username d = u) l = None.
Proof.
  intros H. apply findOne_None, Forall_forall. intros e He [E|E]; by destruct (H e He).
Qed.

(** The unique indexes never refuse what the lookup let through. *)
Lemma insert_after_lookup (l : list Account.t) (d : Account.t) :
  Account.validate d = true ->
  (forall e, e ∈ l -> Account.email e <> Account.email d
                      /\ Account.username e <> Account.username d) ->
  insert_account d l = Some (l ++ [d]).
Proof.
  intros Hv H. unfold insert_account. rewrite Hv.
  assert (U : unique_ok d l = true); [|by rewrite U].
  apply forallb_forall. intros e He. apply list_elem_of_In in He.
  destruct (H e He) as [He1 He2].
  by rewrite !bool_decide_eq_false_2.
Qed.




(** The same holds in the admin collection. *)
Example admin_email_conflict :
  let s := (admin_signup emptyStore warden).1 in
  admin_signup s (Signup.mk (Some "porter") (Some "warden@admin.com") (Some "lodge"))
  = (s, res 400 (JError "Email already registered")).
Proof. reflexivity. Qed.

(** C9: [POST /admin/signup] checks in this order.  A request that
    lacks the username, the email or the password is refused with 400
    "All fields are required", whatever else is wrong with it.  With
    the three fields there, an email that does not end with
    "@admin.com" is refused with 400 "Email must end with @admin.com".
    Only then is the [Admin] collection looked up: an account with the
    email or the username gives a 400 conflict, and otherwise the
    answer is 201 and the [Admin] collection is the old one followed by
    the new account, with the hashed password; the [User] collection
    and the other collections are as before.  In the three refusals the
    store is unchanged. *)
Theorem C9_admin_signup_checks s b :
  (falsy (Signup.username b) = true \/ falsy (Signup.email b) = true
   \/ falsy (Signup.password b) = true ->
   admin_signup s b = (s, res 400 (JError "All fields are required")))
  /\ (forall u e p,
        Signup.username b = Some u -> Signup.email b = Some e ->
        Signup.password b = Some p ->
        u <> "" -> e <> "" -> p <> "" ->
        (endsWith e "@admin.com" = false ->
         admin_signup s b = (s, res 400 (JError "Email must end with @admin.com")))
        /\ (endsWith e "@admin.com" = true ->
            (forall d, d ∈ admins s ->
                       Account.email d = Some e \/ Account.username d = Some u ->
               exists msg,
                 admin_signup s b = (s, res 400 (JError msg))
                 /\ (msg = "Email already registered" \/ msg = "Username already taken"))
            /\ ((forall d, d ∈ admins s ->
                           Account.email d <> Some e /\ Account.username d <> Some u) ->
                admin_signup s b =
                (set_admins (admins s ++ [Account.mk (Some u) (Some e) (Bcrypt 10 p)]) s,
                 res 201 (JMessage "Admin signup successful!"))
                /\ admins (admin_signup s b).1
                   = admins s ++ [Account.mk (Some u) (Some e) (Bcrypt 10 p)]
                /\ users (admin_signup s b).1 = users s
                /\ complaints (admin_signup s b).1 = complaints s
                /\ statuses (admin_signup s b).1 = statuses s
                /\ events (admin_signup s b).1 = events s
                /\ feedbacks (admin_signup s b).1 = feedbacks s))).
Proof.
  destruct b as [bu be bp]. simpl. split.
  - intros H. unfold admin_signup. simpl.
    destruct H as [-> | [-> | ->]]; by rewrite ?orb_true_r.
  - intros u e p -> -> -> Hu He Hp.
    assert (Fu : falsy (Some u) = false) by (simpl; by apply String.eqb_neq).
    assert (Fe : falsy (Some e) = false) by (simpl; by apply String.eqb_neq).
    assert (Fp : falsy (Some p) = false) by (simpl; by apply String.eqb_neq).
    unfold admin_signup. cbn [Signup.username Signup.email Signup.password].
    rewrite Fu, Fe, Fp. cbn [orb]. split; intros Hend; rewrite Hend; cbn [negb].
    + reflexivity.
    + split.
      * intros d Hd Hm.
        destruct (findOne_is_Some
                    (fun d => Account.email d = Some e \/ Account.username d = Some u)
                    (admins s) d Hd Hm) as [y F].
        rewrite F. eexists. split; [reflexivity|].
        destruct (bool_decide _); auto.
      * intros Hno. rewrite lookup_finds_nothing by done.
        cbn [bcrypt_hash].
        rewrite insert_after_lookup; [by split_and! | |exact Hno].
        unfold Account.validate. simpl Account.username. simpl Account.email.
        by rewrite Fu, Fe.
Qed.

Lemma C9_admin_signup_checks_witness :
  (admin_signup emptyStore warden).2 = res 201 (JMessage "Admin signup successful!")
  /\ admins (admin_signup emptyStore warden).1
     = [Account.mk (Some "warden") (Some "warden@admin.com") (Bcrypt 10 "keys")]
  /\ users (admin_signup emptyStore warden).1 = []
  /\ admin_signup emptyStore
       (Signup.mk (Some "warden") (Some "warden@example.com") (Some "keys"))
     = (emptyStore, res 400 (JError "Email must end with @admin.com"))
  /\ admin_signup emptyStore (Signup.mk (Some "warden") (Some "warden@example.com") None)
     = (emptyStore, res 400 (JError "All fields are required")).
Proof.
  assert (Hnew : forall d : Account.t, d ∈ admins emptyStore ->
            Account.email d <> Some "warden@admin.com"
            /\ Account.username d <> Some "warden")
    by (intros d Hd; by apply elem_of_nil in Hd).
  assert (Hu : "warden" <> "") by discriminate.
  assert (He : "warden@admin.com" <> "") by discriminate.
  assert (Hp : "keys" <> "") by discriminate.
  destruct (proj2 (proj2 (proj2 (C9_admin_signup_checks emptyStore warden)
              "warden" "warden@admin.com" "keys" eq_refl eq_refl eq_refl Hu He Hp)
              eq_refl) Hnew) as (Hout & Hadmins & Husers & _).
  split_and!.
  - exact (f_equal snd Hout).
  - exact Hadmins.
  - exact Husers.
  - refine (proj1 (proj2 (C9_admin_signup_checks emptyStore
              (Signup.mk (Some "warden") (Some "warden@example.com") (Some "keys")))
              "warden" "warden@example.com" "keys" eq_refl eq_refl eq_refl _ _ _) eq_refl);
      discriminate.
  - apply (proj1 (C9_admin_signup_checks emptyStore
              (Signup.mk (Some "warden") (Some "warden@example.com") None))).
    right. right. reflexivity.
Defined.

(** C10, as stated, fails: alice has an account, and a signup with
    her email and no username is refused with 400
    "Email already registered", not with 500: the lookup comes before
    the hashing and the save. *)
Lemma C10_counterexample :
  let b := Signup.mk None (Some "alice@svecw.edu.in") (Some "secret") in
  Signup.username b = None
  /\ user_signup one_user b = (one_user, res 400 (JError "Email already registered")).
Proof. split; reflexivity. Qed.

(** C10, amended: a user signup that lacks the username, the email or
    the password is never answered with the missing-field error of the
    admin signup, and never stores an account.  When a stored user has
    the email or the username of the request it is refused with a 400
    conflict; otherwise it fails with 500, in the hashing when the
    password is missing and in the save when the username or the email
    is. *)
Theorem C10_user_signup_missing_field s b :
  Signup.username b = None \/ Signup.email b = None \/ Signup.password b = None ->
  let out := user_signup s b in
  out.1 = s
  /\ payload out.2 <> JError "All fields are required"
  /\ (forall d, d ∈ users s ->
                Account.email d = Signup.email b
                \/ Account.username d = Signup.username b ->
      code out.2 = 400%nat
      /\ (payload out.2 = JError "Email already registered"
          \/ payload out.2 = JError "Username already taken"))
  /\ ((forall d, d ∈ users s ->
                 Account.email d <> Signup.email b
                 /\ Account.username d <> Signup.username b) ->
      out.2 = res 500 (JError "Signup failed. Please try again.")).
Proof.
  intros Hmiss out. subst out. unfold user_signup.
  destruct (findOne _ (users s)) as [y|] eqn:F.
  - simpl. split_and!; [reflexivity | | |].
    + by destruct (bool_decide _).
    + intros _ _ _. split; [reflexivity|]. destruct (bool_decide _); auto.
    + intros Hno. apply findOne_Some in F as (i & _ & Hi & Hy).
      exfalso. destruct (Hno y) as [H1 H2]; [|by destruct Hy].
      eapply list_elem_of_lookup_2; eassumption.
  - assert (Hfail : forall x,
              match bcrypt_hash (Signup.password b) 10 with
              | Some h =>
                  insert_account (Account.mk (Signup.username b) (Signup.email b) h) x
              | None => None
              end = None).
    { intros x. destruct (Signup.password b) as [p|]; [|reflexivity]. simpl.
      unfold insert_account, Account.validate. simpl.
      destruct Hmiss as [-> | [-> | [=]]]; simpl; by rewrite ?andb_false_r. }
    specialize (Hfail (users s)).
    destruct (bcrypt_hash _ _) as [h|]; [rewrite Hfail|]; simpl.
    + split_and!; try done.
      intros d Hd Hm. apply findOne_None in F. rewrite Forall_forall in F.
      by destruct (F d Hd).
    + split_and!; try done.
      intros d Hd Hm. apply findOne_None in F. rewrite Forall_forall in F.
      by destruct (F d Hd).
Qed.

Lemma C10_user_signup_missing_field_witness :
  Signup.password (Signup.mk (Some "carol") (Some "carol@svecw.edu.in") None) = None
  /\ user_signup one_user (Signup.mk (Some "carol") (Some "carol@svecw.edu.in") None)
     = (one_user, res 500 (JError "Signup failed. Please try again.")).
Proof.
  split; [reflexivity|].
  destruct (C10_user_signup_missing_field one_user
              (Signup.mk (Some "carol") (Some "carol@svecw.edu.in") None))
    as (Hs & _ & _ & H500); [right; right; reflexivity|].
  apply injective_projections; [exact Hs|].
  apply H500. intros d Hd. apply list_elem_of_singleton in Hd. subst d.
  split; discriminate.
Defined.

(** A signup with an empty password is not caught either: the empty
    string hashes, and the account is stored. *)
Example empty_password_is_stored :
  (user_signup emptyStore (Signup.mk (Some "dave") (Some "dave@svecw.edu.in") (Some ""))).2
  = res 201 (JMessage "User signup successful!").
Proof. reflexivity. Qed.

(** ** Accounts: what a signup stores, and who can sign in *)

Lemma insert_account_Some (d : Account.t) (l l' : list Account.t) :
  insert_account d l = Some l' ->
  l' = l ++ [d] /\ Account.validate d = true
  /\ forall e, e ∈ l -> Account.username e <> Account.username d
                        /\ Account.email e <> Account.email d.
Proof.
  unfold insert_account.
  destruct (Account.validate d); [|discriminate]. simpl.
  destruct (unique_ok d l) eqn:U; [|discriminate].
  intros [= <-]. split_and!; try reflexivity.
  intros e He. unfold unique_ok in U. rewrite forallb_forall in U.
  apply list_elem_of_In in He. specialize (U e He).
  apply andb_true_iff in U as [U1 U2].
  apply negb_true_iff, bool_decide_eq_false in U1.
  apply negb_true_iff, bool_decide_eq_false in U2. by split.
Qed.

(** The two ways a user signup ends: refused with the store as it
    was, or one account appended. *)
Lemma user_signup_cases s b :
  ((user_signup s b).1 = s
   /\ (code (user_signup s b).2 = 400%nat \/ code (user_signup s b).2 = 500%nat))
  \/ (exists p,
        Signup.password b = Some p
        /\ insert_account (Account.mk (Signup.username b) (Signup.email b) (Bcrypt 10 p))
             (users s)
           = Some (users s ++ [Account.mk (Signup.username b) (Signup.email b) (Bcrypt 10 p)])
        /\ user_signup s b =
           (set_users
              (users s ++ [Account.mk (Signup.username b) (Signup.email b) (Bcrypt 10 p)]) s,
            res 201 (JMessage "User signup successful!"))).
Proof.
  unfold user_signup.
  destruct (findOne _ (users s)); [left; simpl; auto|].
  destruct (Signup.password b) as [p|]; [|left; simpl; auto]. simpl.
  destruct (insert_account _ _) as [l|] eqn:I; [|left; simpl; auto].
  right. exists p. pose proof (insert_account_Some _ _ _ I) as (-> & _ & _).
  by split_and!.
Qed.

Lemma admin_signup_cases s b :
  ((admin_signup s b).1 = s
   /\ (code (admin_signup s b).2 = 400%nat \/ code (admin_signup s b).2 = 500%nat))
  \/ (exists e p,
        Signup.email b = Some e /\ endsWith e "@admin.com" = true
        /\ Signup.password b = Some p
        /\ insert_account (Account.mk (Signup.username b) (Signup.email b) (Bcrypt 10 p))
             (admins s)
           = Some (admins s ++ [Account.mk (Signup.username b) (Signup.email b) (Bcrypt 10 p)])
        /\ admin_signup s b =
           (set_admins
              (admins s ++ [Account.mk (Signup.username b) (Signup.email b) (Bcrypt 10 p)]) s,
            res 201 (JMessage "Admin signup successful!"))).
Proof.
  unfold admin_signup.
  destruct (_ || _); [left; simpl; auto|].
  destruct (Signup.email b) as [e|] eqn:E; [|left; simpl; auto].
  destruct (endsWith e "@admin.com") eqn:D; [|left; simpl; auto]. cbn [negb].
  destruct (findOne _ (admins s)); [left; simpl; auto|].
  destruct (Signup.password b) as [p|]; [|left; simpl; auto]. simpl.
  destruct (insert_account _ _) as [l|] eqn:I; [|left; simpl; auto].
  right. exists e, p. pose proof (insert_account_Some _ _ _ I) as (-> & _ & _).
  by split_and!.
Qed.

Lemma accounts_ok_insert (d : Account.t) (l : list Account.t) :
  accounts_ok l -> insert_account d l = Some (l ++ [d]) -> accounts_ok (l ++ [d]).
Proof.
  intros (Hv & Hu & He) I. apply insert_account_Some in I as (_ & Hd & Hnew).
  split_and!.
  - apply Forall_app. split; [exact Hv | by constructor].
  - rewrite fmap_app. apply NoDup_app. split_and!; [exact Hu | | apply NoDup_singleton].
    intros x Hx. simpl. rewrite list_elem_of_singleton. intros ->.
    apply list_elem_of_fmap in Hx as (e & E & Hin). by destruct (Hnew e Hin).
  - rewrite fmap_app. apply NoDup_app. split_and!; [exact He | | apply NoDup_singleton].
    intros x Hx. simpl. rewrite list_elem_of_singleton. intros ->.
    apply list_elem_of_fmap in Hx as (e & E & Hin). by destruct (Hnew e Hin).
Qed.

(** With distinct usernames, the lookup by username finds the account
    that has it. *)
Lemma findOne_username (l : list Account.t) (d : Account.t) :
  NoDup (Account.username <$> l) ->
  d ∈ l ->
  findOne (fun e => Account.username e = Account.username d) l = Some d.
Proof.
  intros Hnd Hd.
  destruct (findOne_is_Some (fun e => Account.username e = Account.username d) l d Hd eq_refl)
    as [y F].
  rewrite F. f_equal.
  apply findOne_Some in F as (i & _ & Hi & Hy).
  apply list_elem_of_lookup in Hd as [j Hj].
  assert (i = j) as ->; [|congruence].
  apply (NoDup_lookup _ i j (Account.username d) Hnd); rewrite list_lookup_fmap.
  - rewrite Hi. simpl. congruence.
  - rewrite Hj. reflexivity.
Qed.

Lemma findOne_app_new {A} (P : A -> Prop) `{forall x, Decision (P x)} (l : list A) (d : A) :
  (forall e, e ∈ l -> ~ P e) -> P d -> findOne P (l ++ [d]) = Some d.
Proof.
  intros Hl Hd. unfold findOne.
  assert (N : list_find P l = None) by (apply list_find_None, Forall_forall, Hl).
  rewrite (list_find_app_r P l [d] N). simpl.
  by rewrite decide_True.
Qed.

(** X1.  Which user signups are answered with 201: the username and the
    email are non-empty strings, the password is a string (the empty
    one will do), and no stored user has the email or the username.
    The [User] collection is then the old one followed by the new
    account, with the hashed password, and the other collections are as
    before. *)
Theorem user_signup_created s b :
  let wanted :=
    falsy (Signup.username b) = false /\ falsy (Signup.email b) = false
    /\ (exists p, Signup.password b = Some p)
    /\ (forall d, d ∈ users s ->
          Account.email d <> Signup.email b /\ Account.username d <> Signup.username b) in
  (wanted ->
   exists p, Signup.password b = Some p
     /\ (user_signup s b).2 = res 201 (JMessage "User signup successful!")
     /\ users (user_signup s b).1
        = users s ++ [Account.mk (Signup.username b) (Signup.email b) (Bcrypt 10 p)]
     /\ admins (user_signup s b).1 = admins s
     /\ complaints (user_signup s b).1 = complaints s
     /\ statuses (user_signup s b).1 = statuses s
     /\ events (user_signup s b).1 = events s
     /\ feedbacks (user_signup s b).1 = feedbacks s)
  /\ (code (user_signup s b).2 = 201%nat -> wanted).
Proof.
  simpl. split.
  - intros (Hu & He & (p & Hp) & Hno). exists p. split; [exact Hp|].
    unfold user_signup. rewrite lookup_finds_nothing by done.
    rewrite Hp. cbn [bcrypt_hash].
    rewrite insert_after_lookup; [by split_and! | | exact Hno].
    unfold Account.validate. simpl. by rewrite Hu, He.
  - intros Hc. destruct (user_signup_cases s b) as [[_ [E|E]] | (p & Hp & I & _)];
      [rewrite E in Hc; discriminate.. |].
    apply insert_account_Some in I as (_ & Hv & Hno).
    unfold Account.validate in Hv. simpl in Hv. apply andb_true_iff in Hv as [Hu He].
    apply negb_true_iff in Hu, He. split_and!; [done | done | by exists p |].
    intros d Hd. destruct (Hno d Hd) as [H1 H2]. by split.
Qed.

Lemma user_signup_created_witness :
  (user_signup one_user bob).2 = res 201 (JMessage "User signup successful!")
  /\ users (user_signup one_user bob).1
     = [Account.mk (Some "alice") (Some "alice@svecw.edu.in") (Bcrypt 10 "wonderland");
        Account.mk (Some "bob") (Some "bob@svecw.edu.in") (Bcrypt 10 "builder")].
Proof.
  destruct (proj1 (user_signup_created one_user bob)) as (p & Hp & Hres & Husers & _).
  - split_and!; [reflexivity | reflexivity | by eexists |].
    intros d Hd. apply list_elem_of_singleton in Hd. subst d. split; discriminate.
  - split; [exact Hres|]. rewrite Husers. injection Hp as <-. reflexivity.
Defined.

(** X2.  Signing up and then signing in: after a signup that was answered
    with 201, in either class, the login of that class accepts the same
    username and password with 200, and leaves the store as it is. *)
Theorem signup_then_login cls s b :
  code (signup cls s b).2 = 201%nat ->
  let s' := (signup cls s b).1 in
  login cls s' (Login.mk (Signup.username b) (Signup.password b))
  = (s', res 200 (JMessage match cls with
                           | User => "Login successful!"
                           | Admin => "Admin login successful!"
                           end)).
Proof.
  intros Hc.
  assert (exists p d,
            Signup.password b = Some p
            /\ d = Account.mk (Signup.username b) (Signup.email b) (Bcrypt 10 p)
            /\ accounts cls (signup cls s b).1 = accounts cls s ++ [d]
            /\ forall e, e ∈ accounts cls s -> Account.username e <> Signup.username b)
    as (p & d & Hp & Hd & Hacc & Hno).
  { destruct cls; simpl in *.
    - destruct (user_signup_cases s b) as [[_ [E|E]] | (p & Hp & I & R)];
        [rewrite E in Hc; discriminate.. |].
      exists p, (Account.mk (Signup.username b) (Signup.email b) (Bcrypt 10 p)).
      rewrite R. split_and!; try done.
      intros e He. apply insert_account_Some in I as (_ & _ & Hno). by destruct (Hno e He).
    - destruct (admin_signup_cases s b) as [[_ [E|E]] | (e0 & p & _ & _ & Hp & I & R)];
        [rewrite E in Hc; discriminate.. |].
      exists p, (Account.mk (Signup.username b) (Signup.email b) (Bcrypt 10 p)).
      rewrite R. split_and!; try done.
      intros e He. apply insert_account_Some in I as (_ & _ & Hno). by destruct (Hno e He). }
  assert (F : findOne (fun e => Account.username e = Signup.username b)
                (accounts cls (signup cls s b).1) = Some d).
  { rewrite Hacc. apply findOne_app_new; [exact Hno | by subst d]. }
  destruct cls; simpl in *; unfold user_login, admin_login; simpl; rewrite F, Hd, Hp;
    simpl; by rewrite String.eqb_refl.
Qed.

Lemma signup_then_login_witness :
  code (signup Admin emptyStore warden).2 = 201%nat
  /\ login Admin (signup Admin emptyStore warden).1
       (Login.mk (Some "warden") (Some "keys"))
     = ((signup Admin emptyStore warden).1, res 200 (JMessage "Admin login successful!")).
Proof.
  split; [reflexivity|].
  exact (signup_then_login Admin emptyStore warden eq_refl).
Defined.

(** X3.  What a login answers, in a collection whose usernames are
    distinct.  No account with the username: 401 "Invalid username".
    Otherwise [bcrypt.compare] is run on the password of the request
    and the digest of that account: 200 when it says yes, 401
    "Invalid password" when it says no, 500 when it rejects (the
    request has no password).  The store is never changed. *)
Theorem login_outcomes cls s b :
  NoDup (Account.username <$> accounts cls s) ->
  ((forall d, d ∈ accounts cls s -> Account.username d <> Login.username b) ->
   login cls s b = (s, res 401 (JError "Invalid username")))
  /\ (forall d,
        d ∈ accounts cls s ->
        Account.username d = Login.username b ->
        login cls s b =
        (s, match bcrypt_compare (Login.password b) (Account.password d) with
            | None => res 500 (JError "Login failed. Please try again.")
            | Some false => res 401 (JError "Invalid password")
            | Some true =>
                res 200 (JMessage match cls with
                                  | User => "Login successful!"
                                  | Admin => "Admin login successful!"
                                  end)
            end)).
Proof.
  intros Hnd. split.
  - intros Hno.
    assert (F : findOne (fun e => Account.username e = Login.username b) (accounts cls s)
                = None) by (apply findOne_None, Forall_forall, Hno).
    destruct cls; simpl in *; unfold user_login, admin_login; by rewrite F.
  - intros d Hd Hu.
    pose proof (findOne_username _ d Hnd Hd) as F. rewrite Hu in F.
    destruct cls; simpl in *; unfold user_login, admin_login; rewrite F;
      by destruct (bcrypt_compare _ _) as [[]|].
Qed.

Lemma login_outcomes_witness :
  NoDup (Account.username <$> accounts User two_users)
  /\ login User two_users (Login.mk (Some "bob") (Some "builder"))
     = (two_users, res 200 (JMessage "Login successful!"))
  /\ login User two_users (Login.mk (Some "bob") (Some "plumber"))
     = (two_users, res 401 (JError "Invalid password"))
  /\ login User two_users (Login.mk (Some "bob") None)
     = (two_users, res 500 (JError "Login failed. Please try again."))
  /\ login User two_users (Login.mk (Some "carol") (Some "builder"))
     = (two_users, res 401 (JError "Invalid username")).
Proof.
  assert (Hnd : NoDup (Account.username <$> accounts User two_users)).
  { apply NoDup_cons. split; [|apply NoDup_singleton].
    intros H. apply list_elem_of_singleton in H. discriminate. }
  assert (Hbob : Account.mk (Some "bob") (Some "bob@svecw.edu.in") (Bcrypt 10 "builder")
                 ∈ accounts User two_users)
    by apply list_elem_of_further, list_elem_of_here.
  split; [exact Hnd|]. split_and!.
  - exact (proj2 (login_outcomes User two_users (Login.mk (Some "bob") (Some "builder")) Hnd)
             _ Hbob eq_refl).
  - exact (proj2 (login_outcomes User two_users (Login.mk (Some "bob") (Some "plumber")) Hnd)
             _ Hbob eq_refl).
  - exact (proj2 (login_outcomes User two_users (Login.mk (Some "bob") None) Hnd)
             _ Hbob eq_refl).
  - apply (proj1 (login_outcomes User two_users (Login.mk (Some "carol") (Some "builder")) Hnd)).
    intros d Hd. apply elem_of_cons in Hd as [->|Hd]; [discriminate|].
    apply list_elem_of_singleton in Hd. subst d. discriminate.
Defined.

(** X4.  The two classes do not meet: a user signup leaves the [Admin]
    collection alone and cannot change what an admin login answers, and
    an admin signup does the same for users. *)
Theorem classes_are_separate s b lb :
  admins (user_signup s b).1 = admins s
  /\ (admin_login (user_signup s b).1 lb).2 = (admin_login s lb).2
  /\ users (admin_signup s b).1 = users s
  /\ (user_login (admin_signup s b).1 lb).2 = (user_login s lb).2.
Proof.
  assert (Ha : admins (user_signup s b).1 = admins s).
  { destruct (user_signup_cases s b) as [[-> _] | (p & _ & _ & ->)]; reflexivity. }
  assert (Hu : users (admin_signup s b).1 = users s).
  { destruct (admin_signup_cases s b) as [[-> _] | (e & p & _ & _ & _ & _ & ->)];
      reflexivity. }
  split_and!; try done.
  - unfold admin_login. rewrite Ha.
    destruct (findOne _ (admins s)); [|reflexivity].
    by destruct (bcrypt_compare _ _) as [[]|].
  - unfold user_login. rewrite Hu.
    destruct (findOne _ (users s)); [|reflexivity].
    by destruct (bcrypt_compare _ _) as [[]|].
Qed.

(** ** Complaints: what an update can and cannot change *)

(** In a well-formed store a status update either returns the store as
    it was, or has found the first complaint with the date and has
    written it back. *)
Lemma update_status_cases rt now s date st :
  wf s ->
  ((update_status rt now s date st).1 = s
   /\ (code (update_status rt now s date st).2 = 404%nat
       \/ code (update_status rt now s date st).2 = 500%nat))
  \/ (exists d i c0,
        Date_parse rt date = Some d
        /\ list_find (fun c => Complaint.date c = Some d) (complaints s) = Some (i, c0)
        /\ complaints (update_status rt now s date st).1
           = <[i := updated now st c0]> (complaints s)
        /\ users (update_status rt now s date st).1 = users s
        /\ admins (update_status rt now s date st).1 = admins s
        /\ events (update_status rt now s date st).1 = events s
        /\ feedbacks (update_status rt now s date st).1 = feedbacks s
        /\ nextId (update_status rt now s date st).1 = S (nextId s)
        /\ ((negb (falsy st) && Status.in_enum st = true
             /\ statuses (update_status rt now s date st).1
                = statuses s ++ [status_record now (nextId s) st c0]
             /\ (update_status rt now s date st).2
                = res 200 (JMessage "Status updated successfully"))
            \/ (negb (falsy st) && Status.in_enum st = false
                /\ statuses (update_status rt now s date st).1 = statuses s
                /\ (update_status rt now s date st).2
                   = res 500 (JMessage "Failed to update status")))).
Proof.
  intros [Hv Hnd _ _].
  destruct (Date_parse rt date) as [d|] eqn:Hd.
  - destruct (list_find (fun c => Complaint.date c = Some d) (complaints s))
      as [[i c0]|] eqn:F.
    + right. exists d, i, c0.
      rewrite (update_status_found rt now s date st d i c0) by done.
      destruct (negb (falsy st) && Status.in_enum st); simpl; split_and!; auto.
    + left. unfold update_status, findOne. rewrite Hd, F. simpl. auto.
  - left. unfold update_status. rewrite Hd. simpl. auto.
Qed.

Lemma same_report_refl c : same_report c c.
Proof. by repeat split. Qed.

Lemma same_report_updated now st c : same_report c (updated now st c).
Proof. by repeat split. Qed.

(** X9.  A status update changes nothing of a complaint but [status] and
    [updatedAt]: in a well-formed store, whatever the date and the
    status of the request and whatever the answer, the complaints after
    the update are, position by position, the complaints before it with
    the same [_id], username, text, date, location, sub-location, room
    number, image and creation time. *)
Theorem update_keeps_reports rt now s date st :
  wf s ->
  Forall2 same_report (complaints s) (complaints (update_status rt now s date st).1).
Proof.
  intros W.
  destruct (update_status_cases rt now s date st W)
    as [[-> _] | (d & i & c0 & _ & F & -> & _)].
  - apply Forall_Forall2_diag, Forall_forall. intros c _. apply same_report_refl.
  - apply list_find_Some in F as (Hi & _ & _).
    rewrite <- (list_insert_id (complaints s) i c0 Hi) at 1.
    apply Forall2_insert; [|apply same_report_updated].
    apply Forall_Forall2_diag, Forall_forall. intros c _. apply same_report_refl.
Qed.

Lemma update_keeps_reports_witness :
  wf one_complaint
  /\ Forall2 same_report (complaints one_complaint)
       (complaints (update_status sample_runtime 200 one_complaint "2024-01-01"
                      (Some "Resolved")).1).
Proof.
  assert (W : wf one_complaint) by (apply wf_submit, wf_empty).
  split; [exact W|].
  exact (update_keeps_reports sample_runtime 200 one_complaint "2024-01-01"
           (Some "Resolved") W).
Defined.

(** X10.  The lookup is by date alone, so a complaint that shares its date
    with a complaint stored before it is out of reach: no status update,
    whatever its date and status, changes it. *)
Theorem shadowed_complaint_is_never_updated rt now s date st i j c1 c2 :
  wf s ->
  complaints s !! i = Some c1 ->
  complaints s !! j = Some c2 ->
  (i < j)%nat ->
  Complaint.date c1 = Complaint.date c2 ->
  complaints (update_status rt now s date st).1 !! j = Some c2.
Proof.
  intros W Hi Hj Hlt Hdate.
  destruct (update_status_cases rt now s date st W)
    as [[-> _] | (d & i0 & c0 & _ & F & -> & _)]; [exact Hj|].
  apply list_find_Some in F as (Hi0 & Hd0 & Hmin).
  rewrite list_lookup_insert_ne; [exact Hj|].
  intros ->. apply (Hmin i c1 Hi Hlt). congruence.
Qed.

Lemma shadowed_complaint_is_never_updated_witness :
  let s := (submit_complaint sample_runtime 110 one_complaint tap_report None).1 in
  exists c2,
    complaints s !! 1%nat = Some c2
    /\ complaints (update_status sample_runtime 200 s "2024-01-01" (Some "Resolved")).1
         !! 1%nat = Some c2
    /\ Complaint.status c2 = Some "Yet to Begin".
Proof.
  simpl.
  assert (W : wf (submit_complaint sample_runtime 110 one_complaint tap_report None).1)
    by (apply wf_submit, wf_submit, wf_empty).
  eexists. split; [reflexivity|]. split; [|reflexivity].
  eapply (shadowed_complaint_is_never_updated sample_runtime 200 _ "2024-01-01"
            (Some "Resolved") 0%nat 1%nat _ _ W); [reflexivity | reflexivity | lia | reflexivity].
Defined.

(** X11.  The two writes of a status update are not one: when the complaint
    is found but the status is refused by the [Status] schema (it is
    missing, empty or outside the enum), the complaint has already been
    saved with that status and the current time, no status record is
    added, and the answer is 500. *)
Theorem refused_update_changes_the_complaint rt now s date d st c :
  wf s ->
  Date_parse rt date = Some d ->
  c ∈ complaints s ->
  Complaint.date c = Some d ->
  (forall v, st = Some v -> v ∉ Status.enum) ->
  let out := update_status rt now s date st in
  exists i c0,
    complaints s !! i = Some c0
    /\ Complaint.date c0 = Some d
    /\ complaints out.1
       = <[i := Complaint.set_updatedAt now (Complaint.set_status st c0)]> (complaints s)
    /\ statuses out.1 = statuses s
    /\ out.2 = res 500 (JMessage "Failed to update status").
Proof.
  intros [Hv Hnd _ _] Hd Hc Hcd Hst out. subst out.
  destruct (list_find_elem_of (fun c => Complaint.date c = Some d) _ c Hc Hcd)
    as [[i c0] Hfind].
  rewrite (update_status_found rt now s date st d i c0) by done.
  assert (R : negb (falsy st) && Status.in_enum st = false).
  { destruct st as [v|]; [|reflexivity].
    destruct (Status.in_enum (Some v)) eqn:E; [|by rewrite andb_false_r].
    apply in_enum_spec in E. by destruct (Hst v eq_refl). }
  rewrite R. simpl.
  apply list_find_Some in Hfind as (Hi & Hc0 & _).
  exists i, c0. by split_and!.
Qed.

Lemma refused_update_changes_the_complaint_witness :
  wf one_complaint
  /\ Complaint.status <$>
       complaints (update_status sample_runtime 200 one_complaint "2024-01-01" None).1
     = [None]
  /\ Status.status <$>
       statuses (update_status sample_runtime 200 one_complaint "2024-01-01" None).1
     = [Some "Yet to Begin"].
Proof.
  assert (W : wf one_complaint) by (apply wf_submit, wf_empty).
  assert (Hin : new_complaint sample_runtime 100 0%nat tap_report None
                ∈ complaints one_complaint) by apply list_elem_of_here.
  split; [exact W|].
  destruct (refused_update_changes_the_complaint sample_runtime 200 one_complaint
              "2024-01-01" 1704067200000 None _ W eq_refl Hin eq_refl)
    as (i & c0 & Hi & _ & Hc & Hs & _); [discriminate|].
  rewrite Hc, Hs. destruct i as [|i]; [|discriminate Hi].
  injection Hi as <-. by split.
Defined.

(** ** Complaints: submitting, listing, and the history *)

(** X7.  Submitting and then listing: after a submission with its required
    fields, [GET /get-complaints] answers with the views it gave
    before, followed by one view for the new complaint; that view's
    [image] is the data URI of the uploaded file (its mimetype, then
    the base64 text of its buffer), or null when no file came with the
    request. *)
Theorem submit_then_list rt now s b file :
  required_present rt b = true ->
  exists v,
    (get_complaints (submit_complaint rt now s b file).1).2
    = res 200 (JComplaints (map complaint_view (complaints s) ++ [v]))
    /\ ComplaintView._doc v = new_complaint rt now (nextId s) b file
    /\ ComplaintView.image v =
       match file with
       | Some f =>
           Some ("data:" +:+ Submit.mimetype f +:+ ";base64,"
                 +:+ base64 (Submit.buffer f))
       | None => None
       end.
Proof.
  intros Hreq. rewrite submit_complaint_accepts by done.
  exists (complaint_view (new_complaint rt now (nextId s) b file)).
  unfold get_complaints. simpl. rewrite map_app. split; [reflexivity|].
  destruct file; by split.
Qed.

Lemma submit_then_list_witness :
  required_present sample_runtime mess_report = true
  /\ exists v,
       (get_complaints
          (submit_complaint sample_runtime 300 one_complaint mess_report
             (Some png_upload)).1).2
       = res 200 (JComplaints (map complaint_view (complaints one_complaint) ++ [v]))
       /\ ComplaintView.image v = Some "data:image/png;base64,iVBORw==".
Proof.
  split; [reflexivity|].
  destruct (submit_then_list sample_runtime 300 one_complaint mess_report
              (Some png_upload) eq_refl) as (v & Hv & _ & Hi).
  exists v. split; [exact Hv | exact Hi].
Defined.

(** X8.  There is no idempotency: the same submission sent twice is stored
    twice, as two complaints with different [_id]s and the same content,
    each with its own first status record. *)
Theorem resubmission_duplicates rt now1 now2 s b file :
  required_present rt b = true ->
  let s2 := (submit_complaint rt now2 (submit_complaint rt now1 s b file).1 b file).1 in
  exists c1 c2 r1 r2,
    complaints s2 = complaints s ++ [c1; c2]
    /\ statuses s2 = statuses s ++ [r1; r2]
    /\ Complaint._id c1 <> Complaint._id c2
    /\ Complaint.username c1 = Complaint.username c2
    /\ Complaint.complaintText c1 = Complaint.complaintText c2
    /\ Complaint.date c1 = Complaint.date c2
    /\ Complaint.location c1 = Complaint.location c2
    /\ Complaint.subLocation c1 = Complaint.subLocation c2
    /\ Complaint.roomNo c1 = Complaint.roomNo c2
    /\ Complaint.image c1 = Complaint.image c2
    /\ Status.complaintId r1 = Complaint._id c1
    /\ Status.complaintId r2 = Complaint._id c2.
Proof.
  intros Hreq. simpl. rewrite !submit_complaint_accepts by done. simpl.
  eexists _, _, _, _. rewrite <- !app_assoc. simpl.
  split_and!; try reflexivity; try (destruct file; reflexivity).
  rewrite !new_complaint_id. lia.
Qed.

Lemma resubmission_duplicates_witness :
  required_present sample_runtime tap_report = true
  /\ length (complaints (submit_complaint sample_runtime 100 one_complaint
                           tap_report None).1) = 2%nat.
Proof.
  split; [reflexivity|].
  destruct (resubmission_duplicates sample_runtime 100 100 emptyStore tap_report None eq_refl)
    as (c1 & c2 & r1 & r2 & Hc & _).
  unfold one_complaint. rewrite Hc. reflexivity.
Defined.

(** ** The invariants of the running server *)

Lemma submit_complaint_rest rt now s b file :
  users (submit_complaint rt now s b file).1 = users s
  /\ admins (submit_complaint rt now s b file).1 = admins s
  /\ events (submit_complaint rt now s b file).1 = events s
  /\ feedbacks (submit_complaint rt now s b file).1 = feedbacks s.
Proof.
  destruct (required_present rt b) eqn:R.
  - by rewrite submit_complaint_accepts.
  - by rewrite submit_complaint_rejects.
Qed.

Lemma update_status_rest rt now s date st :
  users (update_status rt now s date st).1 = users s
  /\ admins (update_status rt now s date st).1 = admins s
  /\ events (update_status rt now s date st).1 = events s
  /\ feedbacks (update_status rt now s date st).1 = feedbacks s.
Proof.
  unfold update_status.
  destruct (Date_parse rt date); [|done].
  destruct (findOne _ _); [|done].
  unfold update_complaint. destruct (Complaint.validate _); [|done].
  unfold insert_status. simpl. by destruct (Status.validate _).
Qed.

Lemma post_event_rest s b :
  users (post_event s b).1 = users s /\ admins (post_event s b).1 = admins s
  /\ feedbacks (post_event s b).1 = feedbacks s.
Proof. unfold post_event. by destruct (Event.validate _). Qed.

Lemma post_feedback_rest s b :
  users (post_feedback s b).1 = users s /\ admins (post_feedback s b).1 = admins s
  /\ events (post_feedback s b).1 = events s.
Proof. unfold post_feedback. by destruct (Feedback.validate _). Qed.

(** What a request does to the two account collections. *)
Lemma handle_accounts rt now s r :
  (users (handle rt now s r).1 = users s
   \/ exists d, insert_account d (users s) = Some (users s ++ [d])
                /\ users (handle rt now s r).1 = users s ++ [d])
  /\ (admins (handle rt now s r).1 = admins s
      \/ exists d e, insert_account d (admins s) = Some (admins s ++ [d])
                     /\ admins (handle rt now s r).1 = admins s ++ [d]
                     /\ Account.email d = Some e /\ endsWith e "@admin.com" = true).
Proof.
  destruct r; simpl.
  - destruct (user_signup_cases s b) as [[-> _] | (p & _ & I & ->)]; simpl.
    + by split; left.
    + split; [right; by eexists | by left].
  - rewrite user_login_state. by split; left.
  - destruct (admin_signup_cases s b) as [[-> _] | (e & p & He & Hd & _ & I & ->)]; simpl.
    + by split; left.
    + split; [by left | right]. eexists _, e. by split_and!.
  - rewrite admin_login_state. by split; left.
  - destruct (submit_complaint_rest rt now s b file) as (-> & -> & _). by split; left.
  - by split; left.
  - destruct (update_status_rest rt now s date status) as (-> & -> & _). by split; left.
  - by split; left.
  - destruct (post_event_rest s b) as (-> & -> & _). by split; left.
  - by split; left.
  - destruct (post_feedback_rest s b) as (-> & -> & _). by split; left.
  - by split; left.
Qed.

Lemma mirrors_mono s s' r :
  (forall c, c ∈ complaints s ->
     exists c', c' ∈ complaints s' /\ same_report c c') ->
  mirrors s r -> mirrors s' r.
Proof.
  intros H (c & Hc & Hid & Ht & Hl & Hs).
  destruct (H c Hc) as (c' & Hc' & (E1 & _ & E3 & _ & E5 & E6 & _)).
  exists c'. split_and!; congruence.
Qed.

Lemma insert_same_report (l : list Complaint.t) i c0 c' e :
  l !! i = Some c0 -> same_report c0 c' -> e ∈ l ->
  exists e', e' ∈ <[i := c']> l /\ same_report e e'.
Proof.
  intros Hi Hsame He. apply list_elem_of_lookup in He as [j Hj].
  destruct (decide (j = i)) as [->|Hne].
  - exists c'. split.
    + apply list_elem_of_lookup. exists i. apply list_lookup_insert_eq.
      by eapply lookup_lt_Some.
    + congruence.
  - exists e. split; [|apply same_report_refl].
    apply list_elem_of_lookup. exists j. by rewrite list_lookup_insert_ne.
Qed.

Lemma history_ok_submit rt now s b file :
  history_ok s -> history_ok (submit_complaint rt now s b file).1.
Proof.
  intros H. unfold history_ok in *.
  destruct (required_present rt b) eqn:R.
  - rewrite submit_complaint_accepts by done. simpl.
    apply Forall_app. split.
    + eapply Forall_impl; [exact H|]. intros r [Hv Hm]. split; [exact Hv|].
      eapply mirrors_mono; [|exact Hm]. simpl. intros c Hc.
      exists c. split; [|apply same_report_refl]. apply elem_of_app. by left.
    + constructor; [|constructor]. split.
      * apply initial_status_validate. by rewrite new_complaint_validate.
      * eexists. simpl. split; [|by split_and!].
        apply elem_of_app. right. apply list_elem_of_here.
  - rewrite submit_complaint_rejects by done. exact H.
Qed.

Lemma history_ok_update rt now s date st :
  wf s -> history_ok s -> history_ok (update_status rt now s date st).1.
Proof.
  intros W H. unfold history_ok in *.
  destruct (update_status_cases rt now s date st W)
    as [[-> _] | (d & i & c0 & _ & F & Hc & _ & _ & _ & _ & _ & Hs)]; [exact H|].
  apply list_find_Some in F as (Hi & _ & _).
  assert (Hold : Forall (fun r => Status.validate r = true
                          /\ mirrors (update_status rt now s date st).1 r) (statuses s)).
  { eapply Forall_impl; [exact H|]. intros r [Hv Hm]. split; [exact Hv|].
    eapply mirrors_mono; [|exact Hm]. rewrite Hc. intros e He.
    eapply insert_same_report; [exact Hi | apply same_report_updated | exact He]. }
  destruct Hs as [(Hok & -> & _) | (_ & -> & _)]; [|exact Hold].
  apply Forall_app. split; [exact Hold|].
  constructor; [|constructor]. split.
  - rewrite status_record_validate; [exact Hok|].
    destruct W as [Hv _ _ _]. rewrite Forall_forall in Hv. apply Hv.
    eapply list_elem_of_lookup_2; eassumption.
  - exists (updated now st c0). rewrite Hc. split; [|by split_and!].
    apply list_elem_of_lookup. exists i. apply list_lookup_insert_eq.
    by eapply lookup_lt_Some.
Qed.

Lemma opens_history_more s s' c c' tail :
  Complaint._id c' = Complaint._id c ->
  statuses s' = statuses s ++ tail ->
  opens_history s c -> opens_history s' c'.
Proof.
  intros Hid Hs (i & r & F & Hr). exists i, r. split; [|exact Hr].
  rewrite Hs, Hid. by apply list_find_app_l.
Qed.

Lemma opens_submit rt now s b file :
  wf s ->
  (forall c, c ∈ complaints s -> opens_history s c) ->
  forall c, c ∈ complaints (submit_complaint rt now s b file).1 ->
            opens_history (submit_complaint rt now s b file).1 c.
Proof.
  intros [_ _ _ Hrefs] H c.
  destruct (required_present rt b) eqn:R.
  - rewrite submit_complaint_accepts by done. simpl.
    rewrite elem_of_app, list_elem_of_singleton. intros [Hc | ->].
    + eapply (opens_history_more s _ c c); [reflexivity | reflexivity | by apply H].
    + unfold opens_history. simpl. rewrite new_complaint_id.
      assert (N : list_find (fun r => Status.complaintId r = nextId s) (statuses s) = None).
      { apply list_find_None. eapply Forall_impl; [exact Hrefs|]. simpl. lia. }
      rewrite (list_find_app_r _ _ _ N). simpl. rewrite new_complaint_id.
      rewrite decide_True by reflexivity. simpl. by eexists _, _.
  - rewrite submit_complaint_rejects by done. simpl. intros Hc.
    destruct (H c Hc) as (i & r & F & Hr). by exists i, r.
Qed.

Lemma opens_update rt now s date st :
  (forall c, c ∈ complaints s -> opens_history s c) ->
  forall c, c ∈ complaints (update_status rt now s date st).1 ->
            opens_history (update_status rt now s date st).1 c.
Proof.
  intros H c' Hc'.
  destruct (update_status_effect rt now s date st) as (Hids & _ & Hs & _).
  assert (exists c, c ∈ complaints s /\ Complaint._id c' = Complaint._id c) as (c & Hc & E).
  { assert (Hm : Complaint._id c' ∈ Complaint._id <$> complaints s).
    { rewrite <- Hids. apply list_elem_of_fmap. by exists c'. }
    apply list_elem_of_fmap in Hm as (c & E & Hc). by exists c. }
  destruct Hs as [Hs | (r & _ & Hs & _)].
  - eapply (opens_history_more s _ c c' []); [exact E | by rewrite app_nil_r | by apply H].
  - eapply (opens_history_more s _ c c' [r]); [exact E | exact Hs | by apply H].
Qed.

Lemma sound_empty : sound emptyStore.
Proof.
  split; simpl.
  - apply wf_empty.
  - split_and!; constructor.
  - split_and!; constructor.
  - constructor.
  - constructor.
  - intros c Hc. by apply elem_of_nil in Hc.
Qed.

Lemma sound_handle rt now s r : sound s -> sound (handle rt now s r).1.
Proof.
  intros [W Hu Ha Hd Hh Ho].
  destruct (handle_accounts rt now s r) as [HU HA].
  assert (Hquiet : same_tracking s (handle rt now s r).1 ->
            history_ok (handle rt now s r).1
            /\ forall c, c ∈ complaints (handle rt now s r).1 ->
                         opens_history (handle rt now s r).1 c).
  { intros (Ec & Es & _). unfold history_ok, opens_history, mirrors.
    rewrite Ec, Es. by split. }
  assert (Hrest : history_ok (handle rt now s r).1
            /\ forall c, c ∈ complaints (handle rt now s r).1 ->
                         opens_history (handle rt now s r).1 c).
  { destruct r; simpl in *.
    - apply Hquiet, user_signup_tracking.
    - apply Hquiet. rewrite user_login_state. apply same_tracking_refl.
    - apply Hquiet, admin_signup_tracking.
    - apply Hquiet. rewrite admin_login_state. apply same_tracking_refl.
    - split; [by apply history_ok_submit | by apply opens_submit].
    - apply Hquiet, same_tracking_refl.
    - split; [by apply history_ok_update | by apply opens_update].
    - apply Hquiet, same_tracking_refl.
    - apply Hquiet, post_event_tracking.
    - apply Hquiet, same_tracking_refl.
    - apply Hquiet, post_feedback_tracking.
    - apply Hquiet, same_tracking_refl. }
  destruct Hrest as [Hh' Ho'].
  split; [by apply wf_handle | | | | exact Hh' | exact Ho'].
  - destruct HU as [-> | (d & I & ->)]; [exact Hu | by apply accounts_ok_insert].
  - destruct HA as [-> | (d & e & I & -> & _)]; [exact Ha | by apply accounts_ok_insert].
  - destruct HA as [-> | (d & e & _ & -> & He & Hend)]; [exact Hd|].
    apply Forall_app. split; [exact Hd|]. constructor; [by exists e | constructor].
Qed.

Lemma reachable_sound rt s : reachable rt s -> sound s.
Proof. induction 1; [apply sound_empty | by apply sound_handle]. Qed.

Lemma busy_store_reachable : reachable sample_runtime busy_store.
Proof.
  unfold busy_store, one_complaint.
  do 4 apply reach_step.
  apply (reach_step sample_runtime emptyStore 100 (SubmitComplaint tap_report None)).
  apply reach_empty.
Qed.

(** ** What holds in every state the server reaches *)

(** X5.  The lookup before the insert keeps both account collections free
    of duplicates: in every reachable store, and in either class, no
    two accounts share a username, no two share an email, and every
    account has a non-empty username and a non-empty email. *)
Theorem accounts_stay_unique rt s cls :
  reachable rt s ->
  NoDup (Account.username <$> accounts cls s)
  /\ NoDup (Account.email <$> accounts cls s)
  /\ forall d, d ∈ accounts cls s ->
       falsy (Account.username d) = false /\ falsy (Account.email d) = false.
Proof.
  intros [_ (Hv1 & Hu1 & He1) (Hv2 & Hu2 & He2) _ _ _]%reachable_sound.
  assert (G : forall l, Forall (fun d => Account.validate d = true) l ->
            forall d, d ∈ l ->
              falsy (Account.username d) = false /\ falsy (Account.email d) = false).
  { intros l Hl d Hd. rewrite Forall_forall in Hl. specialize (Hl d Hd).
    unfold Account.validate in Hl. apply andb_true_iff in Hl as [H1 H2].
    by apply negb_true_iff in H1, H2. }
  destruct cls; simpl; split_and!; eauto.
Qed.

Lemma accounts_stay_unique_witness :
  reachable sample_runtime busy_store
  /\ NoDup (Account.username <$> accounts User busy_store)
  /\ NoDup (Account.email <$> accounts Admin busy_store).
Proof.
  split; [exact busy_store_reachable|].
  split.
  - apply (accounts_stay_unique sample_runtime busy_store User busy_store_reachable).
  - apply (accounts_stay_unique sample_runtime busy_store Admin busy_store_reachable).
Defined.

(** X6.  Every admin account of a reachable store has an email of the form
    [p ++ "@admin.com"]. *)
Theorem admin_emails_in_domain rt s d :
  reachable rt s ->
  d ∈ admins s ->
  exists p, Account.email d = Some (p +:+ "@admin.com").
Proof.
  intros [_ _ _ Hd _ _]%reachable_sound Hin.
  unfold admin_domain in Hd. rewrite Forall_forall in Hd.
  destruct (Hd d Hin) as (e & He & Hend).
  apply endsWith_spec in Hend as [p ->]. by exists p.
Qed.

Lemma admin_emails_in_domain_witness :
  reachable sample_runtime busy_store
  /\ exists d p, d ∈ admins busy_store /\ Account.email d = Some (p +:+ "@admin.com").
Proof.
  split; [exact busy_store_reachable|].
  assert (Hin : Account.mk (Some "warden") (Some "warden@admin.com") (Bcrypt 10 "keys")
                ∈ admins busy_store) by apply list_elem_of_here.
  destruct (admin_emails_in_domain sample_runtime busy_store _ busy_store_reachable Hin)
    as [p Hp].
  by eexists _, p.
Defined.

(** X13.  The history only holds what the [Status] schema accepts, and it
    agrees with the complaints: in every reachable store the status of
    a status record is one of "Yet to Begin", "In Progress",
    "Resolved", and the record points at a stored complaint whose text,
    location and sub-location are the ones copied into the record. *)
Theorem history_is_consistent rt s r :
  reachable rt s ->
  r ∈ statuses s ->
  (exists v, Status.status r = Some v /\ v ∈ Status.enum)
  /\ exists c, c ∈ complaints s
       /\ Complaint._id c = Status.complaintId r
       /\ Complaint.complaintText c = Status.complaintText r
       /\ Complaint.location c = Status.location r
       /\ Complaint.subLocation c = Status.subLocation r.
Proof.
  intros [_ _ _ _ Hh _]%reachable_sound Hin.
  unfold history_ok in Hh. rewrite Forall_forall in Hh.
  destruct (Hh r Hin) as [Hv Hm]. split; [|exact Hm].
  unfold Status.validate in Hv. rewrite !andb_true_iff in Hv.
  destruct Hv as [[_ Hf] He].
  destruct (Status.status r) as [v|]; [|discriminate Hf].
  exists v. split; [reflexivity | by apply in_enum_spec].
Qed.

Lemma history_is_consistent_witness :
  reachable sample_runtime busy_store
  /\ exists r v, r ∈ statuses busy_store /\ Status.status r = Some v /\ v ∈ Status.enum.
Proof.
  split; [exact busy_store_reachable|].
  assert (exists r, r ∈ statuses busy_store) as [r Hr]
    by (eexists; apply list_elem_of_here).
  destruct (history_is_consistent sample_runtime busy_store r busy_store_reachable Hr)
    as [(v & Hv & He) _].
  by exists r, v.
Defined.

(** With distinct [_id]s, the lookup by [_id] finds the complaint that
    has it. *)
Lemma findOne_id (l : list Complaint.t) (c : Complaint.t) :
  NoDup (Complaint._id <$> l) ->
  c ∈ l ->
  findOne (fun e => Complaint._id e = Complaint._id c) l = Some c.
Proof.
  intros Hnd Hc.
  destruct (findOne_is_Some (fun e => Complaint._id e = Complaint._id c) l c Hc eq_refl)
    as [y F].
  rewrite F. f_equal.
  apply findOne_Some in F as (i & _ & Hi & Hy).
  apply list_elem_of_lookup in Hc as [j Hj].
  assert (i = j) as ->; [|congruence].
  apply (NoDup_lookup _ i j (Complaint._id c) Hnd); rewrite list_lookup_fmap.
  - rewrite Hi. simpl. congruence.
  - rewrite Hj. reflexivity.
Qed.

(** X15.  [GET /get-status] in a reachable store: one view per status
    record, in store order; the populated [complaintId] is never null,
    and the three fields it brings from the complaint are the ones the
    record already carries.  The store is not changed. *)
Theorem get_status_populates rt s :
  reachable rt s ->
  exists views,
    get_status s = (s, res 200 (JStatuses views))
    /\ Forall2
         (fun r v =>
            StatusView.record v = r
            /\ StatusView.populated v =
               Some (Status.complaintText r, Status.location r, Status.subLocation r))
         (statuses s) views.
Proof.
  intros R. pose proof (reachable_sound rt s R) as [[_ Hnd _ _] _ _ _ Hh _].
  exists (map (populate s) (statuses s)). split; [reflexivity|].
  unfold history_ok in Hh.
  induction (statuses s) as [|r l IH]; simpl; constructor.
  - apply Forall_cons in Hh as [[_ (c & Hc & Hid & Ht & Hl & Hs)] _].
    unfold populate. simpl. split; [reflexivity|].
    rewrite <- Hid, (findOne_id _ c Hnd Hc). simpl. congruence.
  - apply IH. by apply Forall_cons in Hh as [_ Hh].
Qed.

Lemma get_status_populates_witness :
  reachable sample_runtime busy_store
  /\ exists views,
       (get_status busy_store).2 = res 200 (JStatuses views)
       /\ StatusView.populated <$> views
          = [Some (Some "Tap leaking", Some "hostel", Some "B block");
             Some (Some "Food spilled", Some "mess", None);
             Some (Some "Tap leaking", Some "hostel", Some "B block")].
Proof.
  split; [exact busy_store_reachable|].
  destruct (get_status_populates sample_runtime busy_store busy_store_reachable)
    as (views & Hv & _).
  exists views. split; [exact (f_equal snd Hv)|].
  injection Hv as <-. reflexivity.
Defined.



(** ** Nothing is ever deleted *)

Lemma grows_refl s : grows s s.
Proof. by repeat split. Qed.

Lemma grows_trans s1 s2 s3 : grows s1 s2 -> grows s2 s3 -> grows s1 s3.
Proof.
  intros (A1 & A2 & A3 & A4 & A5 & A6) (B1 & B2 & B3 & B4 & B5 & B6).
  repeat split; etrans; eassumption.
Qed.

Lemma grows_handle rt now s r : grows s (handle rt now s r).1.
Proof.
  destruct (handle_accounts rt now s r) as [HU HA].
  assert (PU : users s `prefix_of` users (handle rt now s r).1).
  { destruct HU as [-> | (d & _ & ->)]; [done | by apply prefix_app_r]. }
  assert (PA : admins s `prefix_of` admins (handle rt now s r).1).
  { destruct HA as [-> | (d & e & _ & -> & _)]; [done | by apply prefix_app_r]. }
  split; [exact PU|]. split; [exact PA|]. clear HU HA PU PA.
  destruct r; simpl.
  - destruct (user_signup_cases s b) as [[-> _] | (p & _ & _ & ->)]; by simpl.
  - by rewrite user_login_state.
  - destruct (admin_signup_cases s b) as [[-> _] | (e & p & _ & _ & _ & _ & ->)]; by simpl.
  - by rewrite admin_login_state.
  - destruct (submit_complaint_rest rt now s b file) as (_ & _ & -> & ->).
    destruct (submit_complaint_effect rt now s b file)
      as [(-> & -> & _) | (c & r & -> & -> & _)]; [done|].
    rewrite fmap_app. split_and!; try done; by apply prefix_app_r.
  - done.
  - destruct (update_status_rest rt now s date status) as (_ & _ & -> & ->).
    destruct (update_status_effect rt now s date status) as (-> & _ & Hs & _).
    destruct Hs as [-> | (r & c & -> & _)]; split_and!; try done.
    by apply prefix_app_r.
  - done.
  - destruct (post_event_tracking s b) as (-> & -> & _).
    destruct (post_event_rest s b) as (_ & _ & ->).
    unfold post_event. destruct (Event.validate _); simpl; split_and!; try done.
    by apply prefix_app_r.
  - done.
  - destruct (post_feedback_tracking s b) as (-> & -> & _).
    destruct (post_feedback_rest s b) as (_ & _ & ->).
    unfold post_feedback. destruct (Feedback.validate _); simpl; split_and!; try done.
    by apply prefix_app_r.
  - done.
Qed.

(** X16.  No route deletes: after any run of requests, every account, status
    record, event and feedback that was stored is still there,
    unchanged and in its place, followed by what the run added; and so
    is every complaint, under its [_id]. *)
Theorem nothing_is_deleted rt s run :
  users s `prefix_of` users (serve rt s run)
  /\ admins s `prefix_of` admins (serve rt s run)
  /\ (Complaint._id <$> complaints s)
       `prefix_of` (Complaint._id <$> complaints (serve rt s run))
  /\ statuses s `prefix_of` statuses (serve rt s run)
  /\ events s `prefix_of` events (serve rt s run)
  /\ feedbacks s `prefix_of` feedbacks (serve rt s run).
Proof.
  change (grows s (serve rt s run)).
  revert s. induction run as [|[now r] run IH]; intros s; [apply grows_refl|].
  simpl. eapply grows_trans; [apply grows_handle | apply IH].
Qed.

(** X17.  An error never leaves a trace, except on one route: when the
    answer to a request other than a status update has a code of 400 or
    more, the six collections are exactly as before. *)
Theorem errors_change_nothing rt now s r :
  (forall date st, r <> UpdateStatus date st) ->
  (400 <= code (handle rt now s r).2)%nat ->
  users (handle rt now s r).1 = users s
  /\ admins (handle rt now s r).1 = admins s
  /\ complaints (handle rt now s r).1 = complaints s
  /\ statuses (handle rt now s r).1 = statuses s
  /\ events (handle rt now s r).1 = events s
  /\ feedbacks (handle rt now s r).1 = feedbacks s.
Proof.
  intros Hr Hc. destruct r; simpl in *.
  - destruct (user_signup_cases s b) as [[-> _] | (p & _ & _ & E)]; [done|].
    rewrite E in Hc. simpl in Hc. lia.
  - by rewrite user_login_state.
  - destruct (admin_signup_cases s b) as [[-> _] | (e & p & _ & _ & _ & _ & E)]; [done|].
    rewrite E in Hc. simpl in Hc. lia.
  - by rewrite admin_login_state.
  - destruct (required_present rt b) eqn:R.
    + rewrite submit_complaint_accepts in Hc by done. simpl in Hc. lia.
    + by rewrite submit_complaint_rejects.
  - done.
  - by destruct (Hr date status).
  - done.
  - unfold post_event in *. destruct (Event.validate _); [simpl in Hc; lia | done].
  - done.
  - unfold post_feedback in *. destruct (Feedback.validate _); [simpl in Hc; lia | done].
  - done.
Qed.

Lemma errors_change_nothing_witness :
  (400 <= code (handle sample_runtime 500 busy_store
                  (SubmitComplaint unsigned_report (Some png_upload))).2)%nat
  /\ complaints (handle sample_runtime 500 busy_store
                   (SubmitComplaint unsigned_report (Some png_upload))).1
     = complaints busy_store.
Proof.
  assert (Hc : (400 <= code (handle sample_runtime 500 busy_store
                  (SubmitComplaint unsigned_report (Some png_upload))).2)%nat)
    by (vm_compute; lia).
  split; [exact Hc|].
  apply (errors_change_nothing sample_runtime 500 busy_store
           (SubmitComplaint unsigned_report (Some png_upload))); [discriminate | exact Hc].
Defined.

(** ** Events and feedback *)

Lemma event_validate_spec b :
  Event.validate
    (Event.mk (PostEvent.date b) (PostEvent.department b) (PostEvent.title b)
       (PostEvent.venue b) (PostEvent.time b) (PostEvent.timePeriod b)
       (PostEvent.description b)) = true
  <-> event_accepted b.
Proof.
  unfold Event.validate, event_accepted. simpl.
  rewrite !andb_true_iff, !negb_true_iff.
  assert (P : Event.period_ok (PostEvent.timePeriod b) = true
              <-> PostEvent.timePeriod b = Some "AM" \/ PostEvent.timePeriod b = Some "PM").
  { destruct (PostEvent.timePeriod b) as [p|]; simpl.
    - rewrite orb_true_iff, !String.eqb_eq. split; intros [H|H]; [left|right|left|right];
        congruence.
    - split; [discriminate | intros [?|?]; discriminate]. }
  rewrite P. tauto.
Qed.

(** X18.  Posting an event and reading the events back.  A request whose
    date, department, title, venue and time are non-empty strings and
    whose time period is "AM" or "PM" is stored as the last event, with
    its description as given, and [GET /events] then returns the old
    events followed by it.  Any other request is answered with 500 and
    stores nothing. *)
Theorem post_event_then_list s b :
  (event_accepted b ->
   let e := Event.mk (PostEvent.date b) (PostEvent.department b) (PostEvent.title b)
              (PostEvent.venue b) (PostEvent.time b) (PostEvent.timePeriod b)
              (PostEvent.description b) in
   post_event s b = (set_events (events s ++ [e]) s,
                     res 201 (JSuccess true "Event posted successfully!"))
   /\ (get_events (post_event s b).1).2 = res 200 (JEvents (events s ++ [e])))
  /\ (~ event_accepted b ->
      post_event s b = (s, res 500 (JSuccess false "Failed to post event"))).
Proof.
  split.
  - intros H. apply event_validate_spec in H. simpl.
    unfold post_event. by rewrite H.
  - intros H. unfold post_event.
    destruct (Event.validate _) eqn:V; [|reflexivity].
    by apply event_validate_spec in V.
Qed.

Lemma post_event_then_list_witness :
  event_accepted sports_day
  /\ (exists e, (get_events (post_event emptyStore sports_day).1).2 = res 200 (JEvents [e]))
  /\ post_event emptyStore
       (PostEvent.mk (Some "2024-03-15") (Some "Physical Education") (Some "Sports day")
          (Some "Main ground") (Some "9:30") (Some "am") None)
     = (emptyStore, res 500 (JSuccess false "Failed to post event")).
Proof.
  assert (A : event_accepted sports_day) by (unfold event_accepted; simpl; tauto).
  split; [exact A|]. split.
  - eexists. exact (proj2 (proj1 (post_event_then_list emptyStore sports_day) A)).
  - apply (proj2 (post_event_then_list emptyStore _)).
    intros (_ & _ & _ & _ & _ & [H|H]); discriminate H.
Defined.

Lemma feedback_validate_spec b :
  Feedback.validate
    (Feedback.mk (PostFeedback.date b) (PostFeedback.description b)
       (PostFeedback.rating b)) = true
  <-> feedback_accepted b.
Proof.
  unfold Feedback.validate, feedback_accepted. simpl.
  rewrite !andb_true_iff, !negb_true_iff, bool_decide_eq_true.
  unfold is_Some. tauto.
Qed.

(** X19.  Feedback, likewise: with a non-empty date and description and a
    rating it is stored as the last feedback and [GET /api/feedback]
    returns it after the old ones; without one of them the answer is 500
    and nothing is stored. *)
Theorem post_feedback_then_list s b :
  (feedback_accepted b ->
   let f := Feedback.mk (PostFeedback.date b) (PostFeedback.description b)
              (PostFeedback.rating b) in
   post_feedback s b = (set_feedbacks (feedbacks s ++ [f]) s,
                        res 201 (JSuccess true "Feedback submitted successfully!"))
   /\ (get_feedback (post_feedback s b).1).2 = res 200 (JFeedbacks (feedbacks s ++ [f])))
  /\ (~ feedback_accepted b ->
      post_feedback s b = (s, res 500 (JSuccess false "Failed to submit feedback"))).
Proof.
  split.
  - intros H. apply feedback_validate_spec in H. simpl.
    unfold post_feedback. by rewrite H.
  - intros H. unfold post_feedback.
    destruct (Feedback.validate _) eqn:V; [|reflexivity].
    by apply feedback_validate_spec in V.
Qed.

Lemma post_feedback_then_list_witness :
  feedback_accepted good_feedback
  /\ (exists f, (get_feedback (post_feedback emptyStore good_feedback).1).2
                = res 200 (JFeedbacks [f]))
  /\ post_feedback emptyStore
       (PostFeedback.mk (Some "2024-03-15") (Some "Cleaned within a day") None)
     = (emptyStore, res 500 (JSuccess false "Failed to submit feedback")).
Proof.
  assert (A : feedback_accepted good_feedback).
  { unfold feedback_accepted. simpl. split_and!; try reflexivity. by eexists. }
  split; [exact A|]. split.
  - eexists. exact (proj2 (proj1 (post_feedback_then_list emptyStore good_feedback) A)).
  - apply (proj2 (post_feedback_then_list emptyStore _)).
    intros (_ & _ & n & H). discriminate H.
Defined.

(** ** The image of a view determines the stored image *)

Section Base64.
Local Open Scope N_scope.

(** The sixty-four characters of the alphabet are distinct, and none
    of them is the padding character or a comma. *)
Lemma b64_table :
  forallb (fun i =>
    match String.get i b64_alphabet with
    | Some a =>
        negb (Ascii.eqb a "=") && negb (Ascii.eqb a ",")
        && forallb (fun j =>
             match String.get j b64_alphabet with
             | Some b => negb (Ascii.eqb a b) || Nat.eqb i j
             | None => false
             end) (seq 0 64)
    | None => false
    end) (seq 0 64) = true.
Proof. vm_compute. reflexivity. Qed.

Lemma b64_index_lt n : (N.to_nat (N.land n 63) < 64)%nat.
Proof.
  change 63 with (N.ones 6). rewrite N.land_ones.
  pose proof (N.mod_lt n (2 ^ 6)) as H. change (2 ^ 6) with 64 in *. lia.
Qed.

Lemma b64_char_get n :
  String.get (N.to_nat (N.land n 63)) b64_alphabet = Some (b64_char n).
Proof.
  pose proof b64_table as T. rewrite forallb_forall in T.
  specialize (T (N.to_nat (N.land n 63))). unfold b64_char.
  destruct (String.get _ b64_alphabet); [reflexivity|].
  assert (false = true); [|discriminate]. apply T, in_seq.
  pose proof (b64_index_lt n). lia.
Qed.

Lemma b64_char_plain n : b64_char n <> "="%char /\ b64_char n <> ","%char.
Proof.
  pose proof b64_table as T. rewrite forallb_forall in T.
  assert (I : In (N.to_nat (N.land n 63)) (seq 0 64))
    by (apply in_seq; pose proof (b64_index_lt n); lia).
  specialize (T _ I). rewrite b64_char_get in T.
  rewrite !andb_true_iff, !negb_true_iff, !Ascii.eqb_neq in T. tauto.
Qed.

Lemma b64_char_inj n m : b64_char n = b64_char m -> N.land n 63 = N.land m 63.
Proof.
  intros E. pose proof b64_table as T. rewrite forallb_forall in T.
  assert (I : In (N.to_nat (N.land n 63)) (seq 0 64))
    by (apply in_seq; pose proof (b64_index_lt n); lia).
  assert (J : In (N.to_nat (N.land m 63)) (seq 0 64))
    by (apply in_seq; pose proof (b64_index_lt m); lia).
  specialize (T _ I). rewrite b64_char_get in T.
  apply andb_true_iff in T as [_ T]. rewrite forallb_forall in T.
  specialize (T _ J). rewrite b64_char_get, E in T.
  rewrite Ascii.eqb_refl in T. simpl in T. apply Nat.eqb_eq in T. lia.
Qed.

(** Equal sextets are equal bits. *)
Lemma sextet_bits t t' k n :
  N.land (N.shiftr t k) 63 = N.land (N.shiftr t' k) 63 ->
  k <= n < k + 6 ->
  N.testbit t n = N.testbit t' n.
Proof.
  intros H Hn.
  assert (E : N.testbit (N.land (N.shiftr t k) 63) (n - k)
              = N.testbit (N.land (N.shiftr t' k) 63) (n - k)) by (by rewrite H).
  change 63 with (N.ones 6) in E.
  rewrite !N.land_spec, !N.shiftr_spec', N.ones_spec_low, !andb_true_r in E by lia.
  by replace (n - k + k) with n in E by lia.
Qed.

Lemma byte_high x n : 8 <= n -> N.testbit (Byte.to_N x) n = false.
Proof.
  intros Hn. pose proof (Byte.to_N_bounded x) as B.
  rewrite <- (N.mod_small (Byte.to_N x) (2 ^ 8)) by (change (2 ^ 8) with 256; lia).
  by apply N.mod_pow2_bits_high.
Qed.

Lemma byte_bits_eq x y :
  (forall i, i < 8 -> N.testbit (Byte.to_N x) i = N.testbit (Byte.to_N y) i) -> x = y.
Proof.
  intros H.
  assert (E : Byte.to_N x = Byte.to_N y).
  { apply N.bits_inj. intros i. destruct (N.lt_ge_cases i 8) as [Hi|Hi].
    - by apply H.
    - by rewrite !byte_high. }
  pose proof (Byte.of_to_N x) as Hx. rewrite E, Byte.of_to_N in Hx. congruence.
Qed.

(** Where the bits of the three bytes sit in the triple. *)
Lemma triple_bit_a a b c i :
  i < 8 -> N.testbit (b64_triple a b c) (i + 16) = N.testbit (Byte.to_N a) i.
Proof.
  intros Hi. unfold b64_triple. rewrite !N.lor_spec, N.shiftl_spec_alt.
  rewrite N.shiftl_spec_high' by lia.
  rewrite (byte_high b), (byte_high c) by lia. by rewrite !orb_false_r.
Qed.

Lemma triple_bit_b a b c i :
  i < 8 -> N.testbit (b64_triple a b c) (i + 8) = N.testbit (Byte.to_N b) i.
Proof.
  intros Hi. unfold b64_triple. rewrite !N.lor_spec, N.shiftl_spec_alt.
  rewrite N.shiftl_spec_low by lia.
  rewrite (byte_high c) by lia. by rewrite orb_false_r.
Qed.

Lemma triple_bit_c a b c i :
  i < 8 -> N.testbit (b64_triple a b c) i = N.testbit (Byte.to_N c) i.
Proof.
  intros Hi. unfold b64_triple. rewrite !N.lor_spec.
  by rewrite !N.shiftl_spec_low by lia.
Qed.

(** Two neighbouring characters fix the byte that straddles them. *)
Lemma sextets_a a b c a' b' c' :
  b64_char (N.shiftr (b64_triple a b c) 18) = b64_char (N.shiftr (b64_triple a' b' c') 18) ->
  b64_char (N.shiftr (b64_triple a b c) 12) = b64_char (N.shiftr (b64_triple a' b' c') 12) ->
  a = a'.
Proof.
  intros H1%b64_char_inj H2%b64_char_inj. apply byte_bits_eq. intros i Hi.
  rewrite <- (triple_bit_a a b c i), <- (triple_bit_a a' b' c' i) by done.
  destruct (N.lt_ge_cases i 2).
  - apply (sextet_bits _ _ 12); [exact H2 | lia].
  - apply (sextet_bits _ _ 18); [exact H1 | lia].
Qed.

Lemma sextets_b a b c a' b' c' :
  b64_char (N.shiftr (b64_triple a b c) 12) = b64_char (N.shiftr (b64_triple a' b' c') 12) ->
  b64_char (N.shiftr (b64_triple a b c) 6) = b64_char (N.shiftr (b64_triple a' b' c') 6) ->
  b = b'.
Proof.
  intros H1%b64_char_inj H2%b64_char_inj. apply byte_bits_eq. intros i Hi.
  rewrite <- (triple_bit_b a b c i), <- (triple_bit_b a' b' c' i) by done.
  destruct (N.lt_ge_cases i 4).
  - apply (sextet_bits _ _ 6); [exact H2 | lia].
  - apply (sextet_bits _ _ 12); [exact H1 | lia].
Qed.

Lemma sextets_c a b c a' b' c' :
  b64_char (N.shiftr (b64_triple a b c) 6) = b64_char (N.shiftr (b64_triple a' b' c') 6) ->
  b64_char (b64_triple a b c) = b64_char (b64_triple a' b' c') ->
  c = c'.
Proof.
  intros H1%b64_char_inj H2%b64_char_inj. apply byte_bits_eq. intros i Hi.
  rewrite <- (triple_bit_c a b c i), <- (triple_bit_c a' b' c' i) by done.
  destruct (N.lt_ge_cases i 6).
  - apply (sextet_bits _ _ 0); [by rewrite !N.shiftr_0_r | lia].
  - apply (sextet_bits _ _ 6); [exact H1 | lia].
Qed.

End Base64.

Ltac b64_split :=
  repeat match goal with
    | H : String _ _ = String _ _ |- _ => injection H as ? ?
    | H : EmptyString = String _ _ |- _ => discriminate H
    | H : String _ _ = EmptyString |- _ => discriminate H
    | H : "="%char = b64_char ?n |- _ => symmetry in H
    | H : b64_char ?n = "="%char |- _ => by destruct (b64_char_plain n)
    end.

(** X20.  [toString("base64")] loses nothing: two buffers with the same
    base64 text are the same buffer. *)
Theorem base64_injective (bs1 bs2 : list byte) :
  base64 bs1 = base64 bs2 -> bs1 = bs2.
Proof.
  assert (G : forall n (l1 l2 : list byte), (length l1 < n)%nat ->
            base64 l1 = base64 l2 -> l1 = l2).
  { induction n as [|n IH]; intros l1 l2 Hlen E; [lia|].
    destruct l1 as [|a1 [|b1 [|c1 r1]]], l2 as [|a2 [|b2 [|c2 r2]]];
      cbn [base64] in E; b64_split; try reflexivity.
    - f_equal. eapply sextets_a; eassumption.
    - f_equal; [eapply sextets_a | f_equal; eapply sextets_b]; eassumption.
    - f_equal; [eapply sextets_a; eassumption|].
      f_equal; [eapply sextets_b; eassumption|].
      f_equal; [eapply sextets_c; eassumption|].
      apply IH; [simpl in Hlen; lia | assumption]. }
  apply (G (S (length bs1))). lia.
Qed.

Lemma base64_injective_witness :
  base64 (Submit.buffer png_upload) = base64 [x89; x50; x4e; x47]
  /\ Submit.buffer png_upload = [x89; x50; x4e; x47].
Proof.
  split; [reflexivity|].
  exact (base64_injective (Submit.buffer png_upload) [x89; x50; x4e; x47] eq_refl).
Defined.

Lemma list_ascii_of_append (s1 s2 : string) :
  list_ascii_of_string (s1 +:+ s2) = list_ascii_of_string s1 ++ list_ascii_of_string s2.
Proof.
  induction s1 as [|a s1 IH]; [reflexivity|].
  change (a :: list_ascii_of_string (s1 +:+ s2)
          = a :: (list_ascii_of_string s1 ++ list_ascii_of_string s2)).
  by rewrite IH.
Qed.

Lemma list_ascii_of_string_inj (s1 s2 : string) :
  list_ascii_of_string s1 = list_ascii_of_string s2 -> s1 = s2.
Proof.
  intros E. rewrite <- (string_of_list_ascii_of_string s1), E.
  apply string_of_list_ascii_of_string.
Qed.

(** The last occurrence of a character splits a text in one way. *)
Lemma pivot_unique {A} (x : A) (u1 u2 e1 e2 : list A) :
  x ∉ e1 -> x ∉ e2 -> u1 ++ x :: e1 = u2 ++ x :: e2 -> u1 = u2 /\ e1 = e2.
Proof.
  intros H1 H2. revert u2.
  induction u1 as [|y u1 IH]; intros [|z u2] E; simpl in E.
  - by injection E.
  - injection E as -> ->. exfalso. apply H1. apply elem_of_app. right. apply list_elem_of_here.
  - injection E as -> <-. exfalso. apply H2. apply elem_of_app. right. apply list_elem_of_here.
  - injection E as -> E. destruct (IH u2 E) as [-> ->]. done.
Qed.

Lemma base64_no_comma (bs : list byte) :
  ","%char ∉ list_ascii_of_string (base64 bs).
Proof.
  assert (G : forall n (l : list byte), (length l < n)%nat ->
            ","%char ∉ list_ascii_of_string (base64 l)).
  { induction n as [|n IH]; intros l Hlen; [lia|].
    assert (P : forall k, ","%char <> b64_char k)
      by (intros k E; by destruct (b64_char_plain k)).
    destruct l as [|a [|b [|c r]]]; cbn [base64 list_ascii_of_string].
    - apply not_elem_of_nil.
    - rewrite !not_elem_of_cons. split_and!; try apply P; try discriminate.
      apply not_elem_of_nil.
    - rewrite !not_elem_of_cons. split_and!; try apply P; try discriminate.
      apply not_elem_of_nil.
    - rewrite !not_elem_of_cons. split_and!; try apply P.
      apply IH. simpl in Hlen. lia. }
  apply (G (S (length bs))). lia.
Qed.

(** X21.  Listing is lossless for images: the [image] of a complaint's view
    determines what is stored, that is, whether there is an image, its
    content type and its bytes. *)
Theorem view_determines_image (c1 c2 : Complaint.t) :
  ComplaintView.image (complaint_view c1) = ComplaintView.image (complaint_view c2) ->
  Complaint.image c1 = Complaint.image c2.
Proof.
  unfold complaint_view.
  destruct (Complaint.image c1) as [[d1 t1]|], (Complaint.image c2) as [[d2 t2]|];
    simpl; try discriminate; [|reflexivity].
  intros [= E]. apply (f_equal list_ascii_of_string) in E.
  rewrite !list_ascii_of_append in E.
  change (list_ascii_of_string ";base64,")
    with (list_ascii_of_string ";base64" ++ [","%char]) in E.
  change (list_ascii_of_string "") with (@nil ascii) in E. rewrite !app_nil_l in E.
  assert (R : forall l e : list ascii,
            l ++ (list_ascii_of_string ";base64" ++ [","%char]) ++ e
            = (l ++ list_ascii_of_string ";base64") ++ ","%char :: e)
    by (intros; by rewrite <- !app_assoc).
  rewrite !R in E.
  apply pivot_unique in E as [Et Ed]; try apply base64_no_comma.
  apply app_inv_tail, list_ascii_of_string_inj in Et.
  apply list_ascii_of_string_inj, base64_injective in Ed. by subst.
Qed.

Lemma view_determines_image_witness :
  ComplaintView.image
    (complaint_view (new_complaint sample_runtime 100 0%nat tap_report (Some png_upload)))
  = ComplaintView.image
      (complaint_view (new_complaint sample_runtime 300 7%nat mess_report (Some png_upload)))
  /\ Complaint.image (new_complaint sample_runtime 100 0%nat tap_report (Some png_upload))
     = Complaint.image (new_complaint sample_runtime 300 7%nat mess_report (Some png_upload)).
Proof.
  split; [reflexivity|].
  exact (view_determines_image
           (new_complaint sample_runtime 100 0%nat tap_report (Some png_upload))
           (new_complaint sample_runtime 300 7%nat mess_report (Some png_upload)) eq_refl).
Defined.

(** X12.  The stores the server reaches are the well-formed ones that the
    statements about complaints assume: every stored complaint passed
    the schema, no two complaints share an [_id], and every [_id] and
    every reference of a status record has been handed out by the
    [ObjectId] supply. *)
Theorem reachable_stores_are_well_formed rt s :
  reachable rt s ->
  wf s
  /\ (forall c, c ∈ complaints s ->
        falsy (Complaint.username c) = false
        /\ falsy (Complaint.complaintText c) = false
        /\ falsy (Complaint.location c) = false
        /\ exists d, Complaint.date c = Some d)
  /\ forall i j ci cj,
       complaints s !! i = Some ci -> complaints s !! j = Some cj ->
       Complaint._id ci = Complaint._id cj -> i = j.
Proof.
  intros [W _ _ _ _ _]%reachable_sound. split; [exact W|].
  destruct W as [Hv Hnd _ _]. split.
  - intros c Hc. rewrite Forall_forall in Hv. specialize (Hv c Hc).
    unfold Complaint.validate in Hv.
    rewrite !andb_true_iff, !negb_true_iff, bool_decide_eq_true in Hv.
    destruct Hv as [[[H1 H2] [d H3]] H4]. split_and!; try done. by exists d.
  - intros i j ci cj Hi Hj E.
    apply (NoDup_lookup _ i j (Complaint._id ci) Hnd); rewrite list_lookup_fmap.
    + by rewrite Hi.
    + rewrite Hj. simpl. congruence.
Qed.

Lemma reachable_stores_are_well_formed_witness :
  reachable sample_runtime busy_store
  /\ wf busy_store
  /\ Complaint._id <$> complaints busy_store = [0%nat; 2%nat].
Proof.
  split; [exact busy_store_reachable|].
  split; [|reflexivity].
  apply (reachable_stores_are_well_formed sample_runtime busy_store busy_store_reachable).
Defined.
